(** * Coding Community API: challenge generator and streak engine

    A shallow embedding of [main.py]: the route handlers
    [get_daily_challenge], [create_post], [submit_solution] and [get_streak],
    the calendar functions of Python's [datetime] they call, and the document
    store they talk to.  Handlers are written in a state-and-exception monad
    over a [World] holding the store and the server clock. *)

From stdpp Require Import gmap strings list fin_maps pretty sorting.
From Stdlib Require Import ZArith Ascii String Lia.

Local Open Scope Z_scope.

(** ** Python strings

    A [str] is modelled by its UTF-8 bytes.  Equality, membership in a list
    and the order used by [sorted] and by the store's [$gte] coincide with the
    code-point versions on such encodings.  [ord] and [str.title] are only
    reached with ASCII text (a supported language and a formatted date),
    where a byte is a code point. *)

Definition ord (c : ascii) : Z := Z.of_N (N_of_ascii c).

(** [sum(ord(c) for c in s)] *)
Definition sum_ord (s : string) : Z :=
  foldl (λ acc c, acc + ord c) 0 (list_ascii_of_string s).

Definition is_upper (c : ascii) : bool := (65 <=? ord c) && (ord c <=? 90).
Definition is_lower (c : ascii) : bool := (97 <=? ord c) && (ord c <=? 122).
Definition is_cased (c : ascii) : bool := is_upper c || is_lower c.

Definition to_upper (c : ascii) : ascii :=
  if is_lower c then ascii_of_N (Z.to_N (ord c - 32)) else c.
Definition to_lower (c : ascii) : ascii :=
  if is_upper c then ascii_of_N (Z.to_N (ord c + 32)) else c.

(** [str.title]: a letter that follows an uncased character is put in upper
    case, a letter that follows a cased one in lower case. *)
Fixpoint title_from (previous_is_cased : bool) (s : string) : string :=
  match s with
  | EmptyString => EmptyString
  | String c s' =>
      String (if previous_is_cased then to_lower c else to_upper c)
             (title_from (is_cased c) s')
  end.

Definition str_title (s : string) : string := title_from false s.

(** [str.capitalize], the reading of the specification's
    "Language-capitalized". *)
Definition str_capitalize (s : string) : string :=
  match s with
  | EmptyString => EmptyString
  | String c s' =>
      String (to_upper c)
             (string_of_list_ascii (map to_lower (list_ascii_of_string s')))
  end.

(** The order of [str]: [a <= b]. *)
Definition str_le (a b : string) : bool := String.leb a b.
Definition str_lt (a b : string) : bool := String.ltb a b.

(** [sorted(xs)] on strings, as a stable insertion sort. *)
Fixpoint insert_sorted (x : string) (l : list string) : list string :=
  match l with
  | [] => [x]
  | y :: l' => if str_le x y then x :: l else y :: insert_sorted x l'
  end.

Definition sorted (l : list string) : list string := foldr insert_sorted [] l.

(** ** Calendar dates ([datetime.date])

    A date is a year, a month and a day of the proleptic Gregorian calendar;
    Python accepts the years [MINYEAR = 1] to [MAXYEAR = 9999]. *)

Record date : Type := mkdate { year : Z; month : Z; day : Z }.

Definition MINYEAR : Z := 1.
Definition MAXYEAR : Z := 9999.

Definition is_leap (y : Z) : bool :=
  (y mod 4 =? 0) && (negb (y mod 100 =? 0) || (y mod 400 =? 0)).

Definition days_in_month (y m : Z) : Z :=
  if m =? 2 then (if is_leap y then 29 else 28)
  else if (m =? 4) || (m =? 6) || (m =? 9) || (m =? 11) then 30
  else 31.

Definition valid_date (d : date) : bool :=
  (MINYEAR <=? year d) && (year d <=? MAXYEAR) &&
  (1 <=? month d) && (month d <=? 12) &&
  (1 <=? day d) && (day d <=? days_in_month (year d) (month d)).

(** The day before [d]; [None] below [date.min], where Python raises
    [OverflowError]. *)
Definition prev_day (d : date) : option date :=
  if 1 <? day d then Some (mkdate (year d) (month d) (day d - 1))
  else if 1 <? month d then
    Some (mkdate (year d) (month d - 1) (days_in_month (year d) (month d - 1)))
  else if MINYEAR <? year d then Some (mkdate (year d - 1) 12 31)
  else None.

(** [d - timedelta(days=n)] *)
Fixpoint sub_days (d : date) (n : nat) : option date :=
  match n with
  | O => Some d
  | S n' => match prev_day d with
            | Some d' => sub_days d' n'
            | None => None
            end
  end.

(** Decimal digits, zero padded. *)
Definition digit (n : Z) : ascii := ascii_of_N (Z.to_N (48 + n mod 10)).

Definition pad2 (n : Z) (rest : string) : string :=
  String (digit (n / 10)) (String (digit n) rest).

Definition pad4 (n : Z) (rest : string) : string :=
  pad2 (n / 100) (pad2 n rest).

(** [d.strftime("%Y-%m-%d")] *)
Definition strftime (d : date) : string :=
  pad4 (year d) (String "-" (pad2 (month d) (String "-" (pad2 (day d) EmptyString)))).

Definition digit_val (c : ascii) : option Z :=
  if (48 <=? ord c) && (ord c <=? 57) then Some (ord c - 48) else None.

(** [datetime.strptime(s, "%Y-%m-%d").date()] on the strings [strftime]
    writes: four, two and two digits around hyphens, naming a calendar day.
    [None] stands for [ValueError]. *)
Definition strptime (s : string) : option date :=
  match list_ascii_of_string s with
  | [y3; y2; y1; y0; h1; m1; m0; h2; d1; d0] =>
      a3 ← digit_val y3; a2 ← digit_val y2;
      a1 ← digit_val y1; a0 ← digit_val y0;
      b1 ← digit_val m1; b0 ← digit_val m0;
      c1 ← digit_val d1; c0 ← digit_val d0;
      let d := mkdate (1000 * a3 + 100 * a2 + 10 * a1 + a0)
                      (10 * b1 + b0) (10 * c1 + c0) in
      if bool_decide (h1 = "-"%char) && bool_decide (h2 = "-"%char)
         && valid_date d
      then Some d else None
  | _ => None
  end.

(** ** Exceptions, the world and the handler monad *)

Inductive exn : Type :=
  | HTTPException (status_code : Z) (detail : string)
  | OverflowError
  | ValueError
  | IndexError
  | KeyError (key : string).

(** What running a piece of code yields: a value, a raised exception, or
    [OutOfFuel] when the bound given to a [while] loop was too small. *)
Inductive result (A : Type) : Type :=
  | Ok (a : A)
  | Raise (e : exn)
  | OutOfFuel.
Arguments Ok {A} a.
Arguments Raise {A} e.
Arguments OutOfFuel {A}.

(** A stored document: field names to string values (every field the
    handlers write or read is a string). *)
Abbreviation doc := (gmap string string).

(** The world a request runs in: the collections of the document store, in
    insertion order, and the server clock.  [clock n] is the local calendar
    day seen by the [n]-th call of [datetime.now] and [ticks] counts the
    calls made so far. *)
Record World : Type := mkWorld {
  store : gmap string (list doc);
  clock : nat → date;
  ticks : nat
}.

Definition M (A : Type) : Type := World → result A * World.

Definition ret {A} (a : A) : M A := λ w, (Ok a, w).
Definition raise {A} (e : exn) : M A := λ w, (Raise e, w).
Definition bind {A B} (m : M A) (k : A → M B) : M B :=
  λ w, match m w with
       | (Ok a, w') => k a w'
       | (Raise e, w') => (Raise e, w')
       | (OutOfFuel, w') => (OutOfFuel, w')
       end.

Notation "'do' x <- m ; k" := (bind m (λ x, k))
  (at level 10, x name, m at level 100, k at level 200).
Notation "'do_' m ; k" := (bind m (λ _, k))
  (at level 10, m at level 100, k at level 200).

(** A value or the exception raised in its place. *)
Definition or_raise {A} (o : option A) (e : exn) : M A :=
  match o with Some a => ret a | None => raise e end.

(** [datetime.now(timezone.utc).astimezone()], as far as its date goes. *)
Definition now : M date :=
  λ w, (Ok (clock w (ticks w)),
        mkWorld (store w) (clock w) (S (ticks w))).

(** ** The document store ([database.py])

    [main.py] imports [create_document] and [get_documents] from the module
    [database], whose source is not at hand.  The specification gives their
    contract: [createDocument(collectionName, record) -> generatedId] and
    [getDocuments(collectionName, filter, limit) -> list of records], the
    filter supporting equality and a greater-than-or-equal comparison. *)

(** Modelled from the spec: a condition of a filter on one field, equality
    [{field: v}] or [{field: {"$gte": v}}]. *)
Inductive cond : Type :=
  | CEq (v : string)
  | CGte (v : string).

(** Modelled from the spec: whether the value [v] of a field meets a
    condition; [$gte] compares strings in their order. *)
Definition holds (c : cond) (v : string) : bool :=
  match c with
  | CEq x => bool_decide (v = x)
  | CGte x => str_le x v
  end.

(** Modelled from the spec: a record passes a filter when it has every
    field the filter names, with a value that meets the condition. *)
Definition matches (filt : list (string * cond)) (d : doc) : bool :=
  forallb (λ fc, match d !! fc.1 with
                 | Some v => holds fc.2 v
                 | None => false
                 end) filt.

(** Modelled from the spec: the records of a collection, in insertion
    order; a collection never written to is empty. *)
Definition collection (w : World) (name : string) : list doc :=
  default [] (store w !! name).

(** Modelled from the spec: the identifier the store generates for the
    [n]-th record of a collection. *)
Definition generated_id (n : nat) : string := pretty n.

(** Modelled from the spec: [createDocument(collectionName, record) ->
    generatedId] appends the record to the collection. *)
Definition create_document (name : string) (record : doc) : M string :=
  λ w, (Ok (generated_id (List.length (collection w name))),
        mkWorld (<[name := collection w name ++ [record]]> (store w))
                (clock w) (ticks w)).

(** Modelled from the spec: [getDocuments(collectionName, filter, limit) ->
    list of records] returns the first [limit] records that pass the
    filter. *)
Definition get_documents (name : string) (filt : list (string * cond))
    (limit : nat) : M (list doc) :=
  λ w, (Ok (take limit (List.filter (matches filt) (collection w name))), w).

(** ** The routes of [main.py] *)

Definition LANGUAGES : list string :=
  ["python"; "javascript"; "java"; "go"; "rust"; "cpp"]%string.

Definition today_str : M string :=
  do d <- now; ret (strftime d).

Definition lift {A} (r : result A) : M A := λ w, (r, w).

(** [it[key]] *)
Definition getitem (it : doc) (key : string) : M string :=
  or_raise (it !! key) (KeyError key).

(** [xs[i]] for [0 <= i] *)
Definition index (xs : list string) (i : Z) : M string :=
  or_raise (xs !! Z.to_nat i) IndexError.

(** A comprehension [f(x) for x in l]. *)
Fixpoint for_each {A B} (f : A → M B) (l : list A) : M (list B) :=
  match l with
  | [] => ret []
  | x :: l' => do y <- f x; do ys <- for_each f l'; ret (y :: ys)
  end.

(** *** GET /challenges/{language} *)

Record Challenge : Type := mkChallenge {
  ch_date : string;
  ch_language : string;
  ch_title : string;
  ch_description : string;
  ch_id : string
}.

Definition titles : list string :=
  [ "Two Sum Variant"; "String Compression"; "Balanced Brackets";
    "LRU Cache Mini"; "Matrix Spiral"; "Binary Tree Paths";
    "Anagram Groups"; "Word Ladder Mini" ]%string.

Definition descriptions : list string :=
  [ "Solve the task and share your approach.";
    "Write clean, idiomatic code and discuss trade-offs.";
    "Consider time/space complexity and edge cases." ]%string.

Definition get_daily_challenge (language : string) : M Challenge :=
  if negb (bool_decide (language ∈ LANGUAGES)) then
    raise (HTTPException 404 "Language not supported")
  else
    do date <- today_str;
    let seed := sum_ord (language +:+ date) in
    do title <- index titles (seed mod Z.of_nat (List.length titles));
    do description <-
      index descriptions (seed mod Z.of_nat (List.length descriptions));
    ret {| ch_date := date;
           ch_language := language;
           ch_title := str_title language +:+ " Daily: " +:+ title;
           ch_description := description;
           ch_id := language +:+ "-" +:+ date |}.

(** *** POST /posts *)

Record CreatePost : Type := mkCreatePost {
  cp_language : string;
  cp_kind : string;
  cp_title : string;
  cp_content : string;
  cp_author : string
}.

(** [payload.model_dump()] *)
Definition model_dump (payload : CreatePost) : doc :=
  <["language" := cp_language payload]>
  (<["kind" := cp_kind payload]>
  (<["title" := cp_title payload]>
  (<["content" := cp_content payload]>
  (<["author" := cp_author payload]> ∅)))).

Definition create_post (payload : CreatePost) : M string :=
  if negb (bool_decide (cp_language payload ∈ LANGUAGES)) then
    raise (HTTPException 400 "Unsupported language")
  else if negb (bool_decide (cp_kind payload ∈ ["project"; "question"]%string))
  then raise (HTTPException 400 "Invalid kind")
  else
    do doc_id <- create_document "communitypost" (model_dump payload);
    ret doc_id.

(** *** POST /submit and GET /streak/{username}/{language} *)

Record CreateSubmission : Type := mkCreateSubmission {
  cs_username : string;
  cs_language : string;
  cs_code : option string
}.

Record SubmitResponse : Type := mkSubmitResponse {
  sb_ok : bool;
  sb_date : string;
  sb_streak : Z
}.

Record StreakResponse : Type := mkStreakResponse {
  sr_streak : Z;
  sr_days : list string
}.

(** The loop
[[
    while current.strftime("%Y-%m-%d") in sset:
        streak += 1
        current = current - timedelta(days=1)
]]
    run for at most [fuel] tests of its condition. *)
Fixpoint streak_loop (fuel : nat) (sset : gset string) (current : date)
    (streak : Z) : result Z :=
  match fuel with
  | O => OutOfFuel
  | S fuel' =>
      if bool_decide (strftime current ∈ sset) then
        match sub_days current 1 with
        | Some current' => streak_loop fuel' sset current' (streak + 1)
        | None => Raise OverflowError
        end
      else Ok streak
  end.

(** The filter both streak routes send to the store. *)
Definition window_filter (username language start_date : string)
    : list (string * cond) :=
  [("username", CEq username); ("language", CEq language);
   ("date", CGte start_date)]%string.

(** Both streak routes take the [fuel] of their loop as an argument. *)

Definition submit_solution (fuel : nat) (payload : CreateSubmission)
    : M SubmitResponse :=
  if negb (bool_decide (cs_language payload ∈ LANGUAGES)) then
    raise (HTTPException 400 "Unsupported language")
  else
    do date <- today_str;
    let sub_doc : doc :=
      <["username" := cs_username payload]>
      (<["language" := cs_language payload]>
      (<["date" := date]> ∅)) in
    do_ create_document "submission" sub_doc;
    do t <- now;
    do start <- or_raise (sub_days t 60) OverflowError;
    let start_date := strftime start in
    do items <- get_documents "submission"
      (window_filter (cs_username payload) (cs_language payload) start_date)
      1000;
    do dates <- for_each (λ it, getitem it "date") items;
    let days := sorted (elements (list_to_set dates : gset string)) in
    let streak := 0 in
    do current <- or_raise (strptime date) ValueError;
    let sset : gset string := list_to_set days in
    do streak <- lift (streak_loop fuel sset current streak);
    ret {| sb_ok := true; sb_date := date; sb_streak := streak |}.

Definition get_streak (fuel : nat) (username language : string)
    : M StreakResponse :=
  if negb (bool_decide (language ∈ LANGUAGES)) then
    raise (HTTPException 400 "Unsupported language")
  else
    do date <- today_str;
    do t <- now;
    do start <- or_raise (sub_days t 60) OverflowError;
    let start_date := strftime start in
    do items <- get_documents "submission"
      (window_filter username language start_date) 1000;
    do dates <- for_each (λ it, getitem it "date") items;
    let days := sorted (elements (list_to_set dates : gset string)) in
    let streak := 0 in
    do current <- or_raise (strptime date) ValueError;
    let sset : gset string := list_to_set days in
    do streak <- lift (streak_loop fuel sset current streak);
    ret {| sr_streak := streak; sr_days := days |}.

(** A world whose clock shows the same day at every reading. *)
Definition world_on (d : date) (subs : list doc) : World :=
  mkWorld {[ "submission"%string := subs ]} (λ _, d) 0.

(** A submission document. *)
Definition submission (username language date : string) : doc :=
  <["username" := username]> (<["language" := language]> (<["date" := date]> ∅)).

(** ** Notions used to state the properties *)

(** Linear arithmetic with division and remainder by constants. *)
Ltac div_lia := Z.div_mod_to_equations; lia.

(** Membership of a given string in a given list. *)
Ltac in_list := unfold LANGUAGES; repeat constructor.
Ltac not_in_list :=
  let H := fresh in
  unfold LANGUAGES; intros H;
  repeat (apply elem_of_cons in H as [H|H]; [discriminate H|]);
  by apply elem_of_nil in H.

(** Dates compare as the tuples (year, month, day). *)
Definition date_compare (d1 d2 : date) : comparison :=
  match year d1 ?= year d2 with
  | Eq => match month d1 ?= month d2 with
          | Eq => day d1 ?= day d2
          | c => c
          end
  | c => c
  end.

Definition date_le (d1 d2 : date) : Prop := date_compare d1 d2 ≠ Gt.

(** A number that grows with the date: 372 = 12 * 31 slots a year. *)
Definition rank (d : date) : Z := 372 * year d + 31 * month d + day d.



(** The day shown by the [k]-th clock reading from now, and the world once
    [n] readings were made. *)
Definition reading (w : World) (k : nat) : date := clock w (k + ticks w).

Definition tick (n : nat) (w : World) : World :=
  mkWorld (store w) (clock w) (n + ticks w).

(** A server clock at or after the Unix epoch, within Python's years. *)
Definition clock_ok (d : date) : bool := valid_date d && (1970 <=? year d).

(** The records the window query of the streak routes returns: the first
    1000 submissions, in store order, that pass the filter. *)
Definition window_items (w : World) (username language start_date : string)
    : list doc :=
  take 1000 (List.filter (matches (window_filter username language start_date))
               (collection w "submission")).

(** The world once [record] was appended to the submissions. *)
Definition with_submission (record : doc) (w : World) : World :=
  (create_document "submission" record w).2.

Definition dates_of (items : list doc) : list string :=
  omap (λ it : doc, it !! "date"%string) items.

(** [sorted({it["date"] for it in items})] *)
Definition days_of (items : list doc) : list string :=
  sorted (elements (list_to_set (dates_of items) : gset string)).

(** The streak computation both routes run on the query's records. *)
Definition streak_of (fuel : nat) (items : list doc) (today : date)
    : result Z :=
  streak_loop fuel (list_to_set (days_of items)) today 0.

(** The submissions of a user in a language that lie in the window of the
    streak routes: the window starts 60 days before the second clock reading
    and has no upper end.  (No query is made when that day does not exist.) *)
Definition in_window (w : World) (username language : string) : list doc :=
  match sub_days (reading w 1) 60 with
  | Some start =>
      List.filter (matches (window_filter username language (strftime start)))
        (collection w "submission")
  | None => []
  end.

(** The records the streak routes get from the store in [w]: the first 1000
    of them. *)
Definition window_of (w : World) (username language : string) : list doc :=
  take 1000 (in_window w username language).

(** The world once POST /submit appended the record of today. *)
Definition appended (w : World) (username language : string) : World :=
  with_submission
    (submission username language (strftime (reading w 0))) w.

(** What a streak route answers once the language was accepted and the
    store returned [items]: it parses today back and runs the loop. *)
Definition finish {A} (fuel : nat) (w : World) (items : list doc)
    (response : Z → A) : result A :=
  match sub_days (reading w 1) 60 with
  | None => Raise OverflowError
  | Some _ =>
      match strptime (strftime (reading w 0)) with
      | None => Raise ValueError
      | Some current =>
          match streak_loop fuel (list_to_set (days_of items)) current 0 with
          | Ok streak => Ok (response streak)
          | Raise e => Raise e
          | OutOfFuel => OutOfFuel
          end
      end
  end.

(** *** The challenge generator as the specification words it

    [generate(language, date)]: the seed is the sum of the character codes of
    the language followed by the date; the title is entry [seed mod 8] of the
    title table behind "<Language-capitalized> Daily: "; the description is
    entry [seed mod 3] of the description table; the id is
    "<language>-<date>". *)

Definition TITLES : list string :=
  [ "Two Sum Variant"; "String Compression"; "Balanced Brackets";
    "LRU Cache Mini"; "Matrix Spiral"; "Binary Tree Paths";
    "Anagram Groups"; "Word Ladder Mini" ]%string.

Definition DESCRIPTIONS : list string :=
  [ "Solve the task and share your approach.";
    "Write clean, idiomatic code and discuss trade-offs.";
    "Consider time/space complexity and edge cases." ]%string.

Definition character_code (c : ascii) : Z := Z.of_nat (nat_of_ascii c).

Definition seed_of (language date_string : string) : Z :=
  foldr Z.add 0
    (character_code <$> list_ascii_of_string (language +:+ date_string)).

Definition generate (language date_string : string) : Challenge :=
  let seed := seed_of language date_string in
  {| ch_date := date_string;
     ch_language := language;
     ch_title := str_capitalize language +:+ " Daily: "
                 +:+ nth (Z.to_nat (seed mod 8)) TITLES EmptyString;
     ch_description := nth (Z.to_nat (seed mod 3)) DESCRIPTIONS EmptyString;
     ch_id := language +:+ "-" +:+ date_string |}.


(** *** Worlds to run the routes in *)

Definition jan15 : date := mkdate 2024 1 15.

(** Two earlier days of ann, none today. *)
Definition w_earlier : World :=
  world_on jan15 [submission "ann" "python" "2024-01-14";
                  submission "ann" "python" "2024-01-13"].

(** Today and yesterday for ann, yesterday twice; an older day of bob. *)
Definition w_two_days : World :=
  world_on jan15 [submission "ann" "python" "2024-01-14";
                  submission "bob" "python" "2024-01-13";
                  submission "ann" "python" "2024-01-14";
                  submission "ann" "python" "2024-01-15"].


(** The same, followed by one of today. *)
Definition w_capped : World :=
  world_on jan15 (replicate 1000 (submission "ann" "python" "2024-01-14")
                  ++ [submission "ann" "python" "2024-01-15"]).

(** A single submission dated tomorrow. *)
Definition w_future : World :=
  world_on jan15 [submission "ann" "python" "2024-01-16"].

(** Another record of ann for today, carrying one more field. *)
Definition dup_of_today : doc :=
  <["challenge_id" := "python-2024-01-15"]>
    (submission "ann" "python" "2024-01-15").

(** * The rest of the service

    The routes of [main.py] the streak and challenge properties do not need,
    the schemas of [schemas.py], and the application as a whole. *)

(** ** GET / and GET /languages *)

Definition root : M string := ret "Coding Community Backend Running".

Definition get_languages : M (list string) := ret LANGUAGES.

(** ** Posts and comments *)

(** [if value:] on an optional string argument: [None] and the empty string
    are false. *)
Definition truthy (value : option string) : bool :=
  match value with
  | Some s => negb (bool_decide (s = EmptyString))
  | None => false
  end.

(** [if value: filt[field] = value] *)
Definition filter_on (field : string) (value : option string)
    : list (string * cond) :=
  match value with
  | Some s => if truthy value then [(field, CEq s)] else []
  | None => []
  end.

(** [it["_id"] = str(it.get("_id"))]: the identifier as it is when the
    record has one, the text of [None] otherwise. *)
Definition stringify_id (it : doc) : doc :=
  <["_id" := match it !! "_id"%string with
             | Some s => s
             | None => "None"
             end]> it.

(** The filter of GET /posts. *)
Definition posts_filter (language kind : option string)
    : list (string * cond) :=
  filter_on "language" language ++ filter_on "kind" kind.

(** GET /posts.  The [limit] is a positive number of records. *)
Definition list_posts (language kind : option string) (limit : nat)
    : M (list doc) :=
  let filt := posts_filter language kind in
  do items <- get_documents "communitypost" filt limit;
  ret (stringify_id <$> items).

Record CreateComment : Type := mkCreateComment {
  cc_post_id : string;
  cc_author : string;
  cc_content : string
}.

(** [payload.model_dump()] of a comment. *)
Definition model_dump_comment (payload : CreateComment) : doc :=
  <["post_id" := cc_post_id payload]>
  (<["author" := cc_author payload]>
  (<["content" := cc_content payload]> ∅)).

(** POST /comments *)
Definition add_comment (payload : CreateComment) : M string :=
  do doc_id <- create_document "comment" (model_dump_comment payload);
  ret doc_id.

(** GET /comments/{post_id} *)
Definition list_comments (post_id : string) (limit : nat) : M (list doc) :=
  do items <- get_documents "comment" [("post_id"%string, CEq post_id)] limit;
  ret (stringify_id <$> items).

(** ** GET /test

    The route looks at the connection object [db] of the module [database]
    and at two environment variables.  [db] is [None] or an object that may
    have a [name] and whose [list_collection_names()] returns names or
    raises; no other step on it raises, so the outer handler of the route is
    never entered. *)

Inductive listing : Type :=
  | Listed (names : list string)
  | Failed (message : string).      (* raises [e], with [str(e) = message] *)

Record Database : Type := mkDatabase {
  db_name : option string;          (* [None]: no attribute [name] *)
  db_list_collection_names : listing
}.

Record Diagnostics : Type := mkDiagnostics {
  dg_backend : string;
  dg_database : string;
  dg_database_url : option string;
  dg_database_name : option string;
  dg_connection_status : string;
  dg_collections : list string
}.

Definition set_database (v : string) (r : Diagnostics) : Diagnostics :=
  mkDiagnostics (dg_backend r) v (dg_database_url r) (dg_database_name r)
    (dg_connection_status r) (dg_collections r).
Definition set_database_url (v : option string) (r : Diagnostics)
    : Diagnostics :=
  mkDiagnostics (dg_backend r) (dg_database r) v (dg_database_name r)
    (dg_connection_status r) (dg_collections r).
Definition set_database_name (v : option string) (r : Diagnostics)
    : Diagnostics :=
  mkDiagnostics (dg_backend r) (dg_database r) (dg_database_url r) v
    (dg_connection_status r) (dg_collections r).
Definition set_connection_status (v : string) (r : Diagnostics)
    : Diagnostics :=
  mkDiagnostics (dg_backend r) (dg_database r) (dg_database_url r)
    (dg_database_name r) v (dg_collections r).
Definition set_collections (v : list string) (r : Diagnostics) : Diagnostics :=
  mkDiagnostics (dg_backend r) (dg_database r) (dg_database_url r)
    (dg_database_name r) (dg_connection_status r) v.

(** A byte that continues a code point of UTF-8. *)
Definition is_continuation (c : ascii) : bool :=
  (128 <=? ord c) && (ord c <? 192).

(** [s[:n]]: the first [n] code points of [s]. *)
Fixpoint utf8_take (n : nat) (s : string) : string :=
  match s with
  | EmptyString => EmptyString
  | String c s' =>
      if is_continuation c then String c (utf8_take n s')
      else match n with
           | O => EmptyString
           | S n' => String c (utf8_take n' s')
           end
  end.

(** [len(s)]: the number of code points. *)
Fixpoint code_points (s : string) : nat :=
  match s with
  | EmptyString => O
  | String c s' =>
      if is_continuation c then code_points s' else S (code_points s')
  end.

Definition test_database (db : option Database)
    (getenv : string → option string) : Diagnostics :=
  let response :=
    {| dg_backend := "✅ Running";
       dg_database := "❌ Not Available";
       dg_database_url := None;
       dg_database_name := None;
       dg_connection_status := "Not Connected";
       dg_collections := [] |} in
  let response :=
    match db with
    | Some db =>
        let response := set_database "✅ Available" response in
        let response := set_database_url (Some "✅ Configured"%string) response in
        let response :=
          set_database_name
            (Some match db_name db with
                  | Some name => name
                  | None => "✅ Connected"%string
                  end) response in
        let response := set_connection_status "Connected" response in
        match db_list_collection_names db with
        | Listed collections =>
            let response := set_collections (take 10 collections) response in
            set_database "✅ Connected & Working" response
        | Failed message =>
            set_database ("⚠️  Connected but Error: " +:+ utf8_take 50 message) response
        end
    | None => set_database "⚠️  Available but not initialized" response
    end in
  let response :=
    set_database_url
      (Some (if truthy (getenv "DATABASE_URL"%string)
             then "✅ Set" else "❌ Not Set")%string) response in
  let response :=
    set_database_name
      (Some (if truthy (getenv "DATABASE_NAME"%string)
             then "✅ Set" else "❌ Not Set")%string) response in
  response.

(** ** [schemas.py]

    A model holds for a record when every required field is there and a
    field of a literal type has one of its values; every field of a record
    is a string, and fields the model does not name are ignored. *)

Definition required (d : doc) (field : string) : bool :=
  bool_decide (is_Some (d !! field)).

Definition User (d : doc) : bool := required d "username".

Definition CommunityPost (d : doc) : bool :=
  required d "language"
  && match d !! "kind"%string with
     | Some kind => bool_decide (kind ∈ ["project"; "question"]%string)
     | None => false
     end
  && required d "title" && required d "content" && required d "author".

Definition Comment (d : doc) : bool :=
  required d "post_id" && required d "author" && required d "content".

Definition Challenge_schema (d : doc) : bool :=
  required d "language" && required d "date" && required d "title"
  && required d "description".

Definition Submission (d : doc) : bool :=
  required d "username" && required d "language" && required d "date".

(** "Each Pydantic model corresponds to a MongoDB collection (lowercased
    class name)." *)
Definition schemas : list (string * (doc → bool)) :=
  [("user", User); ("communitypost", CommunityPost); ("comment", Comment);
   ("challenge", Challenge_schema); ("submission", Submission)]%string.

(** Every record of every collection that has a model holds for it. *)
Definition conforms (w : World) : Prop :=
  ∀ name model, (name, model) ∈ schemas →
                Forall (λ d, model d = true) (collection w name).


(** ** The application: one request after the other *)

Inductive request : Type :=
  | GetRoot
  | GetLanguages
  | GetChallenge (language : string)
  | PostPosts (payload : CreatePost)
  | GetPosts (language kind : option string) (limit : nat)
  | PostComments (payload : CreateComment)
  | GetComments (post_id : string) (limit : nat)
  | PostSubmit (payload : CreateSubmission)
  | GetStreak (username language : string)
  | GetTest (db : option Database) (getenv : string → option string).

Inductive response : Type :=
  | Message (message : string)
  | Languages (languages : list string)
  | ChallengeOf (c : Challenge)
  | Id (id : string)
  | Items (items : list doc)
  | Submitted (r : SubmitResponse)
  | Streak (r : StreakResponse)
  | Diagnosed (r : Diagnostics).

Definition handle (fuel : nat) (req : request) : M response :=
  match req with
  | GetRoot => do m <- root; ret (Message m)
  | GetLanguages => do ls <- get_languages; ret (Languages ls)
  | GetChallenge language =>
      do c <- get_daily_challenge language; ret (ChallengeOf c)
  | PostPosts payload => do id <- create_post payload; ret (Id id)
  | GetPosts language kind limit =>
      do items <- list_posts language kind limit; ret (Items items)
  | PostComments payload => do id <- add_comment payload; ret (Id id)
  | GetComments post_id limit =>
      do items <- list_comments post_id limit; ret (Items items)
  | PostSubmit payload =>
      do r <- submit_solution fuel payload; ret (Submitted r)
  | GetStreak username language =>
      do r <- get_streak fuel username language; ret (Streak r)
  | GetTest db getenv => ret (Diagnosed (test_database db getenv))
  end.

(** The world after a request, answered or refused. *)
Definition after (fuel : nat) (w : World) (req : request) : World :=
  (handle fuel req w).2.

Definition serve (fuel : nat) (reqs : list request) (w : World) : World :=
  foldl (after fuel) w reqs.

(** The requests made with GET. *)
Definition is_get (req : request) : bool :=
  match req with
  | PostPosts _ | PostComments _ | PostSubmit _ => false
  | _ => true
  end.

(** A world with an empty store. *)
Definition empty_world (d : date) : World := mkWorld ∅ (λ _, d) 0.

(** The post and the comment used to run the routes. *)
Definition a_post : CreatePost :=
  mkCreatePost "rust" "question" "Borrowing" "Why does this not compile?" "ann".

Definition a_comment : CreateComment :=
  mkCreateComment "7" "bob" "Clone it.".

(** Ann on the 12th and the 13th, bob on the 14th: a gap for ann. *)
Definition w_gap : World :=
  world_on jan15 [submission "ann" "python" "2024-01-12";
                  submission "ann" "python" "2024-01-13";
                  submission "bob" "python" "2024-01-14"].

(** * Properties *)

(** ** Running the model *)

Example strftime_2024_01_15 : strftime (mkdate 2024 1 15) = "2024-01-15"%string.
Proof. reflexivity. Qed.

Example strptime_2024_01_15 : strptime "2024-01-15" = Some (mkdate 2024 1 15).
Proof. reflexivity. Qed.

Example sub_days_60 :
  sub_days (mkdate 2024 3 1) 60 = Some (mkdate 2024 1 1).
Proof. reflexivity. Qed.

Example title_javascript : str_title "javascript" = "Javascript"%string.
Proof. reflexivity. Qed.

Example sorted_dates :
  sorted ["2024-01-15"; "2023-12-31"; "2024-01-02"]%string
  = ["2023-12-31"; "2024-01-02"; "2024-01-15"]%string.
Proof. reflexivity. Qed.

(** ** The order on strings *)

Section str_order.

Lemma ascii_compare_refl (a : ascii) : Ascii.compare a a = Eq.
Proof. unfold Ascii.compare. apply N.compare_refl. Qed.

Lemma str_compare_refl (s : string) : String.compare s s = Eq.
Proof.
  induction s as [|a s IH]; simpl; [done|].
  by rewrite ascii_compare_refl.
Qed.

Lemma str_compare_eq (a b : string) : String.compare a b = Eq ↔ a = b.
Proof.
  split; [apply String.compare_eq_iff|intros ->; apply str_compare_refl].
Qed.


Lemma str_lt_irrefl (a : string) : str_lt a a = false.
Proof. unfold str_lt, String.ltb. by rewrite str_compare_refl. Qed.


Lemma str_le_lteq (a b : string) :
  str_le a b = true ↔ str_lt a b = true ∨ a = b.
Proof.
  unfold str_le, str_lt, String.leb, String.ltb.
  destruct (String.compare a b) eqn:E.
  - apply str_compare_eq in E. naive_solver.
  - naive_solver.
  - split; [done|]. intros [?| ->]; [done|].
    by rewrite str_compare_refl in E.
Qed.

Lemma str_le_refl (a : string) : str_le a a = true.
Proof. apply str_le_lteq. by right. Qed.



Lemma str_lt_nle (a b : string) : str_lt a b = negb (str_le b a).
Proof.
  unfold str_lt, str_le, String.ltb, String.leb.
  rewrite (String.compare_antisym a b).
  by destruct (String.compare b a).
Qed.


End str_order.

(** ** [sorted] *)

Section sorting.

Lemma insert_sorted_perm (x : string) (l : list string) :
  insert_sorted x l ≡ₚ x :: l.
Proof.
  induction l as [|y l IH]; simpl; [done|].
  destruct (str_le x y); [done|].
  rewrite IH. apply Permutation_swap.
Qed.

Lemma sorted_perm (l : list string) : sorted l ≡ₚ l.
Proof.
  induction l as [|x l IH]; simpl; [done|].
  by rewrite insert_sorted_perm, IH.
Qed.




Lemma sorted_elem_of (x : string) (l : list string) : x ∈ sorted l ↔ x ∈ l.
Proof. by rewrite sorted_perm. Qed.

Lemma sorted_length (l : list string) :
  List.length (sorted l) = List.length l.
Proof. by rewrite sorted_perm. Qed.

End sorting.

(** ** Calendar arithmetic *)

Section calendar.

Lemma days_in_month_bounds (y m : Z) : 28 ≤ days_in_month y m ≤ 31.
Proof.
  unfold days_in_month.
  repeat match goal with |- context [if ?b then _ else _] => destruct b end;
    lia.
Qed.

Lemma valid_date_spec (d : date) :
  valid_date d = true ↔
  1 ≤ year d ≤ 9999 ∧ 1 ≤ month d ≤ 12 ∧
  1 ≤ day d ≤ days_in_month (year d) (month d).
Proof.
  unfold valid_date, MINYEAR, MAXYEAR.
  rewrite !andb_true_iff, !Z.leb_le. lia.
Qed.

Lemma valid_date_day (d : date) : valid_date d = true → 1 ≤ day d ≤ 31.
Proof.
  intros [_ [_ H]]%valid_date_spec.
  pose proof (days_in_month_bounds (year d) (month d)). lia.
Qed.

Lemma date_compare_rank (d1 d2 : date) :
  valid_date d1 = true → valid_date d2 = true →
  date_compare d1 d2 = (rank d1 ?= rank d2).
Proof.
  intros H1 H2.
  pose proof (valid_date_day _ H1). pose proof (valid_date_day _ H2).
  apply valid_date_spec in H1, H2.
  unfold date_compare, rank.
  destruct (Z.compare_spec (year d1) (year d2));
    destruct (Z.compare_spec (month d1) (month d2));
    destruct (Z.compare_spec (day d1) (day d2));
    symmetry;
    first [ apply Z.compare_eq_iff | apply Z.compare_lt_iff
          | apply Z.compare_gt_iff ]; lia.
Qed.

Lemma date_compare_eq (d1 d2 : date) : date_compare d1 d2 = Eq → d1 = d2.
Proof.
  unfold date_compare. destruct d1 as [y1 m1 a1], d2 as [y2 m2 a2]; simpl.
  destruct (Z.compare_spec y1 y2); try done.
  destruct (Z.compare_spec m1 m2); try done.
  destruct (Z.compare_spec a1 a2); try done.
  by subst.
Qed.

Lemma prev_day_valid (d d' : date) :
  valid_date d = true → prev_day d = Some d' →
  valid_date d' = true ∧ rank d - 4 ≤ rank d' ∧ rank d' < rank d.
Proof.
  intros Hd%valid_date_spec. unfold prev_day, MINYEAR, rank.
  destruct (Z.ltb_spec 1 (day d)).
  { intros [= <-]; simpl. rewrite valid_date_spec; simpl. lia. }
  destruct (Z.ltb_spec 1 (month d)).
  { intros [= <-]; simpl. rewrite valid_date_spec; simpl.
    pose proof (days_in_month_bounds (year d) (month d - 1)). lia. }
  destruct (Z.ltb_spec 1 (year d)); [|done].
  intros [= <-]; simpl. rewrite valid_date_spec; simpl.
  change (days_in_month (year d - 1) 12) with 31. lia.
Qed.

Lemma prev_day_defined (d : date) :
  valid_date d = true → 404 < rank d → is_Some (prev_day d).
Proof.
  intros Hd%valid_date_spec. unfold prev_day, MINYEAR, rank. intros Hr.
  destruct (Z.ltb_spec 1 (day d)); [done|].
  destruct (Z.ltb_spec 1 (month d)); [done|].
  destruct (Z.ltb_spec 1 (year d)); [done|]. lia.
Qed.

Lemma sub_days_spec (d : date) (n : nat) :
  valid_date d = true → 404 + 4 * Z.of_nat n ≤ rank d →
  ∃ d', sub_days d n = Some d' ∧ valid_date d' = true ∧
        rank d - 4 * Z.of_nat n ≤ rank d' ≤ rank d - Z.of_nat n.
Proof.
  revert d. induction n as [|n IH]; intros d Hd Hr; simpl sub_days.
  - exists d. split_and!; [done|done|lia|lia].
  - destruct (prev_day_defined d) as [d1 E1]; [done|lia|].
    rewrite E1. destruct (prev_day_valid _ _ Hd E1) as (Hd1 & Hlo & Hhi).
    destruct (IH d1) as (d' & E' & Hd' & Hr'); [done|lia|].
    exists d'. split_and!; [done|done|lia|lia].
Qed.

(** Going back [n] days, when that is possible, lands on a calendar day
    at least [n] slots down. *)
Lemma sub_days_rank (d d' : date) (n : nat) :
  valid_date d = true → sub_days d n = Some d' →
  valid_date d' = true ∧ rank d' ≤ rank d - Z.of_nat n.
Proof.
  revert d. induction n as [|n IH]; intros d Hd; simpl sub_days.
  - intros [= <-]. split; [done|lia].
  - destruct (prev_day d) as [d1|] eqn:E1; [|done]. intros E'.
    destruct (prev_day_valid _ _ Hd E1) as (Hd1 & Hlo & Hhi).
    destruct (IH d1 Hd1 E') as [Hd' Hr']. split; [done|lia].
Qed.

Lemma sub_days_add (d : date) (i k : nat) :
  sub_days d (i + k) = sub_days d i ≫= λ a, sub_days a k.
Proof.
  revert d. induction i as [|i IH]; intros d; simpl; [done|].
  destruct (prev_day d); simpl; [apply IH|done].
Qed.

Lemma sub_days_S (d : date) (i : nat) :
  sub_days d (S i) = sub_days d i ≫= λ a, sub_days a 1.
Proof. replace (S i) with (i + 1)%nat by lia. apply sub_days_add. Qed.


End calendar.

(** ** [strftime] and [strptime] *)

Section formatting.

Lemma ord_digit (n : Z) : ord (digit n) = 48 + n mod 10.
Proof.
  unfold ord, digit.
  pose proof (Z.mod_pos_bound n 10 ltac:(lia)).
  rewrite N_ascii_embedding; lia.
Qed.

Lemma digit_val_digit (n : Z) : digit_val (digit n) = Some (n mod 10).
Proof.
  unfold digit_val. rewrite ord_digit.
  pose proof (Z.mod_pos_bound n 10 ltac:(lia)).
  destruct (Z.leb_spec 48 (48 + n mod 10)); [|lia].
  destruct (Z.leb_spec (48 + n mod 10) 57); [|lia].
  simpl. f_equal. lia.
Qed.

Lemma decimal2 (n : Z) :
  0 ≤ n < 100 → 10 * ((n / 10) mod 10) + n mod 10 = n.
Proof. intros. div_lia. Qed.

Lemma decimal4 (n : Z) :
  0 ≤ n < 10000 →
  1000 * ((n / 100 / 10) mod 10) + 100 * ((n / 100) mod 10)
  + 10 * ((n / 10) mod 10) + n mod 10 = n.
Proof. intros. div_lia. Qed.

Lemma strptime_strftime (d : date) :
  valid_date d = true → strptime (strftime d) = Some d.
Proof.
  intros Hd. pose proof (valid_date_day _ Hd) as Hday.
  pose proof Hd as (Hy & Hm & _)%valid_date_spec.
  unfold strptime, strftime, pad4, pad2; simpl list_ascii_of_string.
  cbv beta iota. rewrite !digit_val_digit.
  cbn -[Z.mul Z.add Z.div Z.modulo valid_date].
  rewrite decimal4, !decimal2 by lia.
  rewrite bool_decide_eq_true_2 by done.
  destruct d as [y m a]; simpl in *. by rewrite Hd.
Qed.

Lemma strptime_valid (s : string) (d : date) :
  strptime s = Some d → valid_date d = true.
Proof.
  unfold strptime.
  destruct (list_ascii_of_string s)
    as [|? [|? [|? [|? [|? [|? [|? [|? [|? [|? [|? ?]]]]]]]]]]]; try done.
  repeat (match goal with
          | |- context [digit_val ?c] => destruct (digit_val c); [|done]
          end; cbn [mbind option_bind]).
  repeat match goal with
         | |- context [bool_decide ?P] => destruct (bool_decide P); [|done]
         end.
  cbn [andb]. destruct (valid_date _) eqn:E; [|done]. by intros [= <-].
Qed.

Lemma compare_digit (a b : Z) (s t : string) :
  String.compare (String (digit a) s) (String (digit b) t) =
  match a mod 10 ?= b mod 10 with
  | Eq => String.compare s t
  | c => c
  end.
Proof.
  simpl. unfold Ascii.compare.
  pose proof (ord_digit a) as Ha. pose proof (ord_digit b) as Hb.
  unfold ord in Ha, Hb.
  rewrite <- (N2Z.inj_compare (N_of_ascii (digit a)) (N_of_ascii (digit b))).
  rewrite Ha, Hb.
  by rewrite Z.add_compare_mono_l.
Qed.

Lemma compare_pad2 (a b : Z) (s t : string) :
  0 ≤ a < 100 → 0 ≤ b < 100 →
  String.compare (pad2 a s) (pad2 b t) =
  match a ?= b with Eq => String.compare s t | c => c end.
Proof.
  intros Ha Hb. unfold pad2. rewrite compare_digit.
  destruct (Z.compare_spec ((a / 10) mod 10) ((b / 10) mod 10));
    [rewrite compare_digit;
     destruct (Z.compare_spec (a mod 10) (b mod 10))|..];
    destruct (Z.compare_spec a b); try done; div_lia.
Qed.

Lemma pad2_mod (a : Z) (s : string) : pad2 a s = pad2 (a mod 100) s.
Proof.
  assert ((a / 10) mod 10 = (a mod 100 / 10) mod 10) as E1 by div_lia.
  assert (a mod 10 = (a mod 100) mod 10) as E0 by div_lia.
  unfold pad2, digit. by rewrite E1, E0.
Qed.

Lemma compare_pad4 (a b : Z) (s t : string) :
  0 ≤ a < 10000 → 0 ≤ b < 10000 →
  String.compare (pad4 a s) (pad4 b t) =
  match a ?= b with Eq => String.compare s t | c => c end.
Proof.
  intros Ha Hb. unfold pad4.
  rewrite compare_pad2 by div_lia.
  rewrite (pad2_mod a), (pad2_mod b), compare_pad2 by div_lia.
  destruct (Z.compare_spec (a / 100) (b / 100));
    [destruct (Z.compare_spec (a mod 100) (b mod 100))|..];
    destruct (Z.compare_spec a b); try done; div_lia.
Qed.

(** On calendar days the order of the formatted strings is the order of
    the dates. *)
Lemma strftime_compare (d1 d2 : date) :
  valid_date d1 = true → valid_date d2 = true →
  String.compare (strftime d1) (strftime d2) = date_compare d1 d2.
Proof.
  intros H1 H2.
  pose proof (valid_date_day _ H1). pose proof (valid_date_day _ H2).
  apply valid_date_spec in H1 as (? & ? & _), H2 as (? & ? & _).
  unfold strftime, date_compare.
  rewrite compare_pad4 by lia.
  destruct (year d1 ?= year d2); try done.
  change (String.compare (String "-" ?s) (String "-" ?t))
    with (String.compare s t).
  rewrite compare_pad2 by lia.
  destruct (month d1 ?= month d2); try done.
  change (String.compare (String "-" ?s) (String "-" ?t))
    with (String.compare s t).
  rewrite compare_pad2 by lia.
  by destruct (day d1 ?= day d2).
Qed.

Lemma strftime_inj (d1 d2 : date) :
  valid_date d1 = true → valid_date d2 = true →
  strftime d1 = strftime d2 → d1 = d2.
Proof.
  intros H1 H2 E. apply date_compare_eq.
  rewrite <- strftime_compare, E by done. apply str_compare_refl.
Qed.

Lemma strftime_le (d1 d2 : date) :
  valid_date d1 = true → valid_date d2 = true →
  str_le (strftime d1) (strftime d2) = true ↔ date_le d1 d2.
Proof.
  intros H1 H2. unfold str_le, String.leb, date_le.
  rewrite strftime_compare by done.
  by destruct (date_compare d1 d2).
Qed.

Lemma sub_days_le (d d' : date) (n : nat) :
  valid_date d = true → sub_days d n = Some d' →
  str_le (strftime d') (strftime d) = true.
Proof.
  intros Hd E. destruct (sub_days_rank _ _ _ Hd E) as [Hd' Hr].
  apply strftime_le; [done..|]. unfold date_le.
  rewrite date_compare_rank by done.
  intros Hgt%Z.compare_gt_iff. lia.
Qed.

End formatting.

(** ** The routes, step by step *)

Section routes.

Lemma sum_ord_from (acc : Z) (l : list ascii) :
  foldl (λ acc c, acc + ord c) acc l = acc + foldl (λ acc c, acc + ord c) 0 l.
Proof.
  revert acc. induction l as [|c l IH]; intros acc; simpl; [lia|].
  rewrite (IH (acc + ord c)), (IH (0 + ord c)). lia.
Qed.

Lemma for_each_getitem_date (items : list doc) (w : World) :
  Forall (λ it : doc, is_Some (it !! "date"%string)) items →
  for_each (λ it, getitem it "date") items w = (Ok (dates_of items), w).
Proof.
  induction 1 as [|it items [s Hs] _ IH]; [done|].
  unfold dates_of in *. cbn [for_each omap list_omap].
  unfold bind at 1, getitem at 1. rewrite Hs. cbn [or_raise ret].
  unfold bind at 1. by rewrite IH.
Qed.

Lemma matches_window (u l start_date : string) (it : doc) :
  matches (window_filter u l start_date) it = true ↔
  it !! "username"%string = Some u ∧ it !! "language"%string = Some l ∧
  ∃ s, it !! "date"%string = Some s ∧ str_le start_date s = true.
Proof.
  unfold matches, window_filter; cbn [forallb fst snd holds].
  rewrite !andb_true_iff.
  destruct (it !! "username"%string) as [a|];
    destruct (it !! "language"%string) as [b|];
    destruct (it !! "date"%string) as [c|];
    rewrite ?bool_decide_eq_true; split.
  all: try (by intros (? & ? & ? & ?)); try (by intros (? & ? & ? & ? & ?)).
  - intros (-> & -> & Hc & _). eauto.
  - intros ([= ->] & [= ->] & s & [= ->] & Hs). by rewrite Hs.
Qed.

Lemma get_documents_window (w : World) (u l start_date : string) :
  get_documents "submission" (window_filter u l start_date) 1000 w =
  (Ok (window_items w u l start_date), w).
Proof. done. Qed.

Lemma window_items_spec (w : World) (u l start_date : string) :
  window_items w u l start_date =
  take 1000 (List.filter (matches (window_filter u l start_date))
               (collection w "submission")).
Proof. done. Qed.

Lemma window_items_matches (w : World) (u l start_date : string) (it : doc) :
  it ∈ window_items w u l start_date →
  it ∈ collection w "submission" ∧
  matches (window_filter u l start_date) it = true.
Proof.
  rewrite window_items_spec. intros Hit%subseteq_take.
  by apply list_elem_of_In, List.filter_In in Hit as [?%list_elem_of_In ?].
Qed.

Lemma window_items_have_date (w : World) (u l start_date : string) :
  Forall (λ it : doc, is_Some (it !! "date"%string))
         (window_items w u l start_date).
Proof.
  apply Forall_forall. intros it [_ Hm]%window_items_matches.
  apply matches_window in Hm as (_ & _ & s & -> & _). by eexists.
Qed.

Lemma window_items_length (w : World) (u l start_date : string) :
  (List.length (window_items w u l start_date) ≤ 1000)%nat.
Proof. rewrite window_items_spec, length_take. lia. Qed.

Lemma clock_ok_spec (d : date) :
  clock_ok d = true ↔ valid_date d = true ∧ 1970 ≤ year d.
Proof. unfold clock_ok. rewrite andb_true_iff, Z.leb_le. done. Qed.

Lemma clock_ok_rank (d : date) : clock_ok d = true → 732872 ≤ rank d.
Proof.
  intros [Hd Hy]%clock_ok_spec. apply valid_date_spec in Hd. unfold rank. lia.
Qed.

Lemma clock_ok_sub_days (d : date) (n : nat) :
  clock_ok d = true → (n ≤ 1001)%nat →
  ∃ d', sub_days d n = Some d' ∧ valid_date d' = true.
Proof.
  intros Hd Hn. pose proof (clock_ok_rank _ Hd).
  apply clock_ok_spec in Hd as [Hd _].
  destruct (sub_days_spec d n) as (d' & ? & ? & _); [done|lia|]. eauto.
Qed.

Lemma window_of_items (w : World) (u l : string) (start : date) :
  sub_days (reading w 1) 60 = Some start →
  window_of w u l = window_items w u l (strftime start).
Proof. intros E. unfold window_of, in_window. by rewrite E. Qed.

Lemma window_of_have_date (w : World) (u l : string) :
  Forall (λ it : doc, is_Some (it !! "date"%string)) (window_of w u l).
Proof.
  destruct (sub_days (reading w 1) 60) as [start|] eqn:E.
  - rewrite (window_of_items _ _ _ _ E). apply window_items_have_date.
  - unfold window_of, in_window. rewrite E. constructor.
Qed.

Lemma window_of_length (w : World) (u l : string) :
  (List.length (window_of w u l) ≤ 1000)%nat.
Proof. unfold window_of. rewrite length_take. lia. Qed.

Lemma collection_with_submission (record : doc) (w : World) :
  collection (with_submission record w) "submission" =
  collection w "submission" ++ [record].
Proof.
  unfold with_submission, create_document, collection at 1. cbn [snd store].
  by rewrite lookup_insert_eq.
Qed.

(** [get_streak] on a supported language: it reads the clock twice, asks
    the store for the window and runs the loop on the distinct dates. *)
Lemma get_streak_unfold (fuel : nat) (u l : string) (w : World) :
  l ∈ LANGUAGES →
  get_streak fuel u l w =
  (finish fuel w (window_of w u l)
     (λ streak, {| sr_streak := streak;
                   sr_days := days_of (window_of w u l) |}),
   tick 2 w).
Proof.
  intros Hl. unfold get_streak, finish.
  rewrite bool_decide_eq_true_2 by done. cbn [negb].
  unfold today_str, now, bind at 1 2 3 4, ret at 1. cbn [ticks clock store].
  change (clock w (S (ticks w))) with (reading w 1).
  change (clock w (ticks w)) with (reading w 0).
  pose proof (for_each_getitem_date _ (tick 2 w)
                (window_of_have_date w u l)) as Hfe.
  unfold window_of, in_window in *.
  destruct (sub_days (reading w 1) 60) as [start|]; [|done].
  cbn [or_raise ret]. unfold bind at 1, get_documents. unfold bind at 1.
  unfold tick in *. change (2 + ticks w)%nat with (S (S (ticks w))) in *.
  cbn [store] in *. unfold collection in *. cbn [store] in *.
  rewrite Hfe. unfold bind at 1.
  destruct (strptime (strftime (reading w 0))); [|done].
  cbn [or_raise ret]. unfold bind, lift, ret, days_of.
  by destruct (streak_loop _ _ _ _).
Qed.

(** [submit_solution] on a supported language: the same, after the record
    of today was appended. *)
Lemma submit_solution_unfold (fuel : nat) (payload : CreateSubmission)
    (w : World) :
  cs_language payload ∈ LANGUAGES →
  submit_solution fuel payload w =
  let w' := appended w (cs_username payload) (cs_language payload) in
  (finish fuel w
     (window_of w' (cs_username payload) (cs_language payload))
     (λ streak, {| sb_ok := true; sb_date := strftime (reading w 0);
                   sb_streak := streak |}),
   tick 2 w').
Proof.
  intros Hl. unfold submit_solution, finish.
  rewrite bool_decide_eq_true_2 by done. cbn [negb].
  unfold today_str, now, bind at 1 2 3 4 5, ret at 1.
  cbn [ticks clock store create_document].
  change (clock w (S (ticks w))) with (reading w 1).
  change (clock w (ticks w)) with (reading w 0).
  fold (submission (cs_username payload) (cs_language payload)
          (strftime (reading w 0))).
  pose proof (for_each_getitem_date _
                (tick 2 (appended w (cs_username payload)
                           (cs_language payload)))
                (window_of_have_date
                   (appended w (cs_username payload) (cs_language payload))
                   (cs_username payload) (cs_language payload))) as Hfe.
  unfold window_of, in_window, appended in *.
  set (rec := submission _ _ _) in *.
  change (reading (with_submission rec w) 1) with (reading w 1) in *.
  destruct (sub_days (reading w 1) 60) as [start|]; [|done].
  cbn [or_raise ret]. unfold bind at 1, get_documents. unfold bind at 1.
  unfold tick, with_submission, create_document, collection in *.
  cbn [store snd ticks clock] in *.
  change (2 + ticks w)%nat with (S (S (ticks w))) in *.
  rewrite Hfe. unfold bind at 1.
  destruct (strptime (strftime (reading w 0))); [|done].
  cbn [or_raise ret]. unfold bind, lift, ret, days_of.
  by destruct (streak_loop _ _ _ _).
Qed.

Lemma finish_ok {A} (fuel : nat) (w : World) (items : list doc)
    (response : Z → A) (streak : Z) :
  clock_ok (reading w 0) = true → clock_ok (reading w 1) = true →
  streak_of fuel items (reading w 0) = Ok streak →
  finish fuel w items response = Ok (response streak).
Proof.
  intros H0 H1 Hrun. unfold finish.
  destruct (clock_ok_sub_days _ 60 H1) as (start & -> & _); [lia|].
  apply clock_ok_spec in H0 as [H0 _]. rewrite strptime_strftime by done.
  unfold streak_of in Hrun. by rewrite Hrun.
Qed.

Lemma submit_solution_unsupported (fuel : nat) (p : CreateSubmission)
    (w : World) :
  cs_language p ∉ LANGUAGES →
  submit_solution fuel p w
  = (Raise (HTTPException 400 "Unsupported language"), w).
Proof.
  intros Hl. unfold submit_solution. by rewrite bool_decide_eq_false_2.
Qed.

Lemma get_streak_unsupported (fuel : nat) (u l : string) (w : World) :
  l ∉ LANGUAGES →
  get_streak fuel u l w
  = (Raise (HTTPException 400 "Unsupported language"), w).
Proof.
  intros Hl. unfold get_streak. by rewrite bool_decide_eq_false_2.
Qed.

End routes.

(** ** The distinct dates and the backward walk *)

Section streak.

Lemma days_of_elem_of (items : list doc) (s : string) :
  s ∈ days_of items ↔ ∃ it : doc, it ∈ items ∧ it !! "date"%string = Some s.
Proof.
  unfold days_of, dates_of.
  by rewrite sorted_elem_of, elem_of_elements, elem_of_list_to_set,
    list_elem_of_omap.
Qed.

Lemma days_of_NoDup (items : list doc) : NoDup (days_of items).
Proof.
  unfold days_of. rewrite sorted_perm. apply NoDup_elements.
Qed.


Lemma dates_of_length (items : list doc) :
  (List.length (dates_of items) ≤ List.length items)%nat.
Proof.
  unfold dates_of. induction items as [|it items IH]; [done|].
  rewrite (omap_app _ [it] items : omap _ (it :: items) = _), length_app.
  simpl. destruct (it !! "date"%string); simpl; lia.
Qed.

Lemma days_of_length (items : list doc) :
  (List.length (days_of items) ≤ List.length items)%nat.
Proof.
  unfold days_of. rewrite sorted_length.
  transitivity (List.length (dates_of items)).
  - apply submseteq_length, NoDup_submseteq; [apply NoDup_elements|].
    intros s. by rewrite elem_of_elements, elem_of_list_to_set.
  - apply dates_of_length.
Qed.

Lemma days_of_size (items : list doc) :
  size (list_to_set (days_of items) : gset string)
  = List.length (days_of items).
Proof. apply size_list_to_set, days_of_NoDup. Qed.

Lemma sub_days_1 (d : date) : sub_days d 1 = prev_day d.
Proof. simpl. by destruct (prev_day d). Qed.

(** The loop looks only at today and the days before it. *)
Lemma streak_loop_ext (fuel : nat) (A B : gset string) (R : date) (s : Z) :
  (∀ i d, sub_days R i = Some d → strftime d ∈ A ↔ strftime d ∈ B) →
  streak_loop fuel A R s = streak_loop fuel B R s.
Proof.
  revert R s. induction fuel as [|fuel IH]; intros R s H; [done|].
  cbn [streak_loop]. rewrite sub_days_1.
  rewrite (bool_decide_ext _ _ (H 0%nat R eq_refl)).
  destruct (bool_decide (strftime R ∈ B)); [|done].
  destruct (prev_day R) as [R'|] eqn:E; [|done].
  apply IH. intros i d Hd. apply (H (S i)). simpl. by rewrite E.
Qed.

(** The loop stops at the first day, [k] days back, whose string is
    missing; there are at most as many steps as strings in the set, and any
    larger amount of fuel returns [k]. *)
Lemma streak_loop_total (n : nat) (sset : gset string) (R : date) :
  size sset = n → valid_date R = true →
  404 + 4 * (Z.of_nat n + 1) ≤ rank R →
  ∃ k d, (k ≤ n)%nat ∧
    sub_days R k = Some d ∧ (strftime d ∉ sset) ∧
    (∀ i, (i < k)%nat → ∃ d', sub_days R i = Some d' ∧ strftime d' ∈ sset) ∧
    ∀ fuel s, (n < fuel)%nat →
              streak_loop fuel sset R s = Ok (s + Z.of_nat k).
Proof.
  revert sset R.
  induction n as [|n IH]; intros sset R Hsize HR Hrank;
    destruct (decide (strftime R ∈ sset)) as [Hin|Hout].
  - apply size_empty_iff in Hsize. set_solver.
  - exists 0%nat, R. split_and!; [lia|done|done|lia|].
    intros [|fuel] s Hfuel; [lia|]. cbn [streak_loop].
    rewrite bool_decide_eq_false_2 by done. f_equal. lia.
  - destruct (prev_day_defined R) as [R' E]; [done|lia|].
    destruct (prev_day_valid _ _ HR E) as (HR' & Hlo & Hhi).
    assert (∀ i d, sub_days R' i = Some d → strftime d ≠ strftime R) as Hne.
    { intros i d Hd Heq.
      apply sub_days_rank in Hd as [Hvd Hrd]; [|done].
      apply strftime_inj in Heq; [|done..]. subst d. lia. }
    destruct (IH (sset ∖ {[strftime R]}) R')
      as (k & d & Hk & Hd & Hout & Hbefore & Hrun); [|done|lia|].
    { rewrite size_difference by set_solver. rewrite size_singleton. lia. }
    exists (S k), d. split_and!.
    + lia.
    + simpl. by rewrite E.
    + specialize (Hne k d Hd). set_solver.
    + intros [|i] Hi.
      * exists R. done.
      * destruct (Hbefore i) as (d' & Hd' & Hin'); [lia|].
        exists d'. simpl. rewrite E. split; [done|set_solver].
    + intros [|fuel] s Hfuel; [lia|]. cbn [streak_loop].
      rewrite sub_days_1, E, bool_decide_eq_true_2 by done.
      rewrite (streak_loop_ext fuel sset (sset ∖ {[strftime R]}) R' (s + 1)).
      2:{ intros i d' Hd'. specialize (Hne i d' Hd'). set_solver. }
      rewrite Hrun by lia. f_equal. lia.
  - exists 0%nat, R. split_and!; [lia|done|done|lia|].
    intros [|fuel] s Hfuel; [lia|]. cbn [streak_loop].
    rewrite bool_decide_eq_false_2 by done. f_equal. lia.
Qed.

(** Whatever the day it starts from, the loop does not outlast the strings
    of the set. *)
Lemma streak_loop_ends (n : nat) (sset : gset string) (R : date) (fuel : nat)
    (s : Z) :
  size sset = n → valid_date R = true → (n < fuel)%nat →
  streak_loop fuel sset R s ≠ OutOfFuel.
Proof.
  revert sset R fuel s.
  induction n as [|n IH]; intros sset R [|fuel] s Hsize HR Hfuel; try lia;
    cbn [streak_loop]; rewrite sub_days_1; case_bool_decide as Hin;
    try done.
  - apply size_empty_iff in Hsize. set_solver.
  - destruct (prev_day R) as [R'|] eqn:E; [|done].
    destruct (prev_day_valid _ _ HR E) as (HR' & Hlo & Hhi).
    rewrite (streak_loop_ext fuel sset (sset ∖ {[strftime R]}) R' (s + 1)).
    + apply IH; [|done|lia].
      rewrite size_difference by set_solver. rewrite size_singleton. lia.
    + intros i d Hd.
      assert (strftime d ≠ strftime R); [|set_solver].
      intros Heq. apply sub_days_rank in Hd as [Hvd Hrd]; [|done].
      apply strftime_inj in Heq; [|done..]. subst d. lia.
Qed.

Lemma finish_ends {A} (fuel : nat) (w : World) (items : list doc)
    (response : Z → A) :
  (List.length (days_of items) < fuel)%nat →
  finish fuel w items response ≠ OutOfFuel.
Proof.
  intros Hfuel. unfold finish.
  destruct (sub_days (reading w 1) 60); [|done].
  destruct (strptime (strftime (reading w 0))) as [current|] eqn:E; [|done].
  apply strptime_valid in E.
  pose proof (streak_loop_ends _ (list_to_set (days_of items)) current fuel 0
                (days_of_size items) E Hfuel).
  by destruct (streak_loop _ _ _ _).
Qed.

(** What the loop returns on the records of a window query. *)
Lemma streak_of_total (items : list doc) (today : date) :
  clock_ok today = true → (List.length items ≤ 1000)%nat →
  ∃ k d, (k ≤ List.length (days_of items))%nat ∧
    sub_days today k = Some d ∧ (strftime d ∉ days_of items) ∧
    (∀ i, (i < k)%nat →
          ∃ d', sub_days today i = Some d' ∧ strftime d' ∈ days_of items) ∧
    ∀ fuel, (List.length (days_of items) < fuel)%nat →
            streak_of fuel items today = Ok (Z.of_nat k).
Proof.
  intros Hok Hlen. pose proof (clock_ok_rank _ Hok) as Hrank.
  apply clock_ok_spec in Hok as [Hvalid _].
  pose proof (days_of_length items) as Hdays.
  destruct (streak_loop_total (List.length (days_of items))
              (list_to_set (days_of items)) today)
    as (k & d & Hk & Hd & Hout & Hbefore & Hrun);
    [apply days_of_size|done|lia|].
  exists k, d. split_and!; [done|done|..].
  - by rewrite <- (elem_of_list_to_set (C := gset string)).
  - intros i Hi. destruct (Hbefore i Hi) as (d' & ? & ?).
    exists d'. by rewrite <- (elem_of_list_to_set (C := gset string)).
  - intros fuel Hfuel. unfold streak_of. by rewrite Hrun.
Qed.


(** The streak is 0 when no record is dated today. *)
Lemma streak_of_zero (items : list doc) (today : date) (fuel : nat) :
  strftime today ∉ days_of items → (0 < fuel)%nat →
  streak_of fuel items today = Ok 0.
Proof.
  intros Hout Hfuel. destruct fuel as [|fuel]; [lia|].
  unfold streak_of. cbn [streak_loop].
  rewrite bool_decide_eq_false_2; [done|].
  by rewrite (elem_of_list_to_set (C := gset string)).
Qed.

End streak.

(** ** The challenge generator *)

Section challenge.

Lemma sum_ord_seed_of (language date_string : string) :
  sum_ord (language +:+ date_string) = seed_of language date_string.
Proof.
  unfold sum_ord, seed_of.
  induction (list_ascii_of_string (language +:+ date_string)) as [|c l IH];
    [done|].
  cbn [foldl fmap list_fmap foldr]. rewrite sum_ord_from, IH.
  unfold character_code, ord, nat_of_ascii. rewrite N_nat_Z. lia.
Qed.

Lemma index_nth (xs : list string) (i : Z) (w : World) :
  0 ≤ i < Z.of_nat (List.length xs) →
  index xs i w = (Ok (nth (Z.to_nat i) xs EmptyString), w).
Proof.
  intros Hi. unfold index.
  destruct (xs !! Z.to_nat i) as [x|] eqn:E.
  - by rewrite (nth_lookup_Some _ _ _ _ E).
  - apply lookup_ge_None in E. lia.
Qed.

Lemma supported_cases (P : string → Prop) :
  P "python"%string → P "javascript"%string → P "java"%string →
  P "go"%string → P "rust"%string → P "cpp"%string →
  ∀ l, l ∈ LANGUAGES → P l.
Proof.
  intros ? ? ? ? ? ? l Hl. unfold LANGUAGES in Hl.
  repeat (apply elem_of_cons in Hl as [->|Hl]; [done|]).
  by apply elem_of_nil in Hl.
Qed.

Lemma title_supported (l : string) :
  l ∈ LANGUAGES → str_title l = str_capitalize l.
Proof. revert l. by apply supported_cases. Qed.

(** The route on a supported language. *)
Lemma get_daily_challenge_run (language : string) (w : World) :
  language ∈ LANGUAGES →
  get_daily_challenge language w =
  (Ok (generate language (strftime (reading w 0))), tick 1 w).
Proof.
  intros Hl. unfold get_daily_challenge.
  rewrite bool_decide_eq_true_2 by done. cbn [negb].
  unfold today_str, now, bind at 1 2, ret at 1.
  change (clock w (ticks w)) with (reading w 0).
  set (date := strftime (reading w 0)).
  rewrite sum_ord_seed_of. set (seed := seed_of language date).
  unfold bind at 1. rewrite index_nth
    by (apply (Z.mod_pos_bound seed (Z.of_nat (List.length titles))); done).
  unfold bind at 1. rewrite index_nth
    by (apply (Z.mod_pos_bound seed (Z.of_nat (List.length descriptions)));
        done).
  unfold ret, generate. by rewrite title_supported.
Qed.

(** The route on any other language. *)
Lemma get_daily_challenge_unsupported (language : string) (w : World) :
  language ∉ LANGUAGES →
  get_daily_challenge language w =
  (Raise (HTTPException 404 "Language not supported"), w).
Proof.
  intros Hl. unfold get_daily_challenge.
  by rewrite bool_decide_eq_false_2.
Qed.

End challenge.

(** C1.  For a supported language, GET /challenges/{language} answers with
    the descriptor the specification's generator computes from the language
    and today's formatted date: seed from the character codes of language
    followed by date, title and description picked by [seed mod 8] and
    [seed mod 3], title prefixed by the capitalized language, id
    "<language>-<date>". *)
Theorem challenge_is_generated (language : string) (w : World) :
  language ∈ LANGUAGES →
  get_daily_challenge language w =
  (Ok (generate language (strftime (reading w 0))), tick 1 w).
Proof. apply get_daily_challenge_run. Qed.

Lemma challenge_is_generated_witness :
  "python"%string ∈ LANGUAGES ∧
  get_daily_challenge "python" (world_on (mkdate 2024 1 15) []) =
  (Ok (generate "python" (strftime (mkdate 2024 1 15))),
   tick 1 (world_on (mkdate 2024 1 15) [])).
Proof.
  assert ("python"%string ∈ LANGUAGES) as H by in_list.
  split; [exact H|]. exact (challenge_is_generated "python" _ H).
Defined.

(** The fixed vector of the specification: the seed of "python2024-01-15"
    is 1163, which picks title 3 and description 2. *)
Example generate_python_2024_01_15 :
  seed_of "python" "2024-01-15" = 1163 ∧
  generate "python" "2024-01-15" =
  {| ch_date := "2024-01-15";
     ch_language := "python";
     ch_title := "Python Daily: LRU Cache Mini";
     ch_description := "Consider time/space complexity and edge cases.";
     ch_id := "python-2024-01-15" |}.
Proof. split; reflexivity. Qed.

(** C9.  Challenge generation is deterministic: on a supported language, two
    runs that read the same date from the clock answer with the same
    descriptor, whatever the two stores hold, and neither changes its
    store. *)
Theorem challenge_deterministic (language : string) (w1 w2 : World) :
  language ∈ LANGUAGES →
  reading w1 0 = reading w2 0 →
  ∃ c, (get_daily_challenge language w1).1 = Ok c ∧
       (get_daily_challenge language w2).1 = Ok c ∧
       ch_language c = language ∧
       ch_date c = strftime (reading w1 0) ∧
       store (get_daily_challenge language w1).2 = store w1 ∧
       store (get_daily_challenge language w2).2 = store w2.
Proof.
  intros Hl Hd. rewrite !get_daily_challenge_run by done. rewrite <- Hd.
  by eexists.
Qed.

Lemma challenge_deterministic_witness :
  "rust"%string ∈ LANGUAGES ∧
  reading (world_on (mkdate 2024 2 29) []) 0
  = reading (world_on (mkdate 2024 2 29)
               [submission "ann" "rust" "2024-02-28"]) 0 ∧
  ∃ c, (get_daily_challenge "rust" (world_on (mkdate 2024 2 29) [])).1 = Ok c ∧
       (get_daily_challenge "rust"
          (world_on (mkdate 2024 2 29)
             [submission "ann" "rust" "2024-02-28"])).1 = Ok c ∧
       ch_language c = "rust"%string ∧
       ch_date c = strftime (reading (world_on (mkdate 2024 2 29) []) 0) ∧
       store (get_daily_challenge "rust" (world_on (mkdate 2024 2 29) [])).2
       = store (world_on (mkdate 2024 2 29) []) ∧
       store (get_daily_challenge "rust"
                (world_on (mkdate 2024 2 29)
                   [submission "ann" "rust" "2024-02-28"])).2
       = store (world_on (mkdate 2024 2 29)
                  [submission "ann" "rust" "2024-02-28"]).
Proof.
  assert ("rust"%string ∈ LANGUAGES) as H by in_list.
  split; [exact H|]. split; [reflexivity|].
  exact (challenge_deterministic "rust"
           (world_on (mkdate 2024 2 29) [])
           (world_on (mkdate 2024 2 29) [submission "ann" "rust" "2024-02-28"])
           H eq_refl).
Defined.

(** ** Unsupported languages *)

(** C7.  A language outside the supported set is rejected before any write:
    GET /challenges raises 404, POST /posts, POST /submit and GET /streak
    raise 400, and each leaves the world, hence the store, as it was. *)
Theorem unsupported_language_rejected (language : string) (w : World)
    (fuel : nat) (post : CreatePost) (sub : CreateSubmission)
    (username : string) :
  language ∉ LANGUAGES →
  cp_language post = language →
  cs_language sub = language →
  get_daily_challenge language w
  = (Raise (HTTPException 404 "Language not supported"), w) ∧
  create_post post w
  = (Raise (HTTPException 400 "Unsupported language"), w) ∧
  submit_solution fuel sub w
  = (Raise (HTTPException 400 "Unsupported language"), w) ∧
  get_streak fuel username language w
  = (Raise (HTTPException 400 "Unsupported language"), w).
Proof.
  intros Hl <- Hs.
  unfold get_daily_challenge, create_post, submit_solution, get_streak.
  rewrite Hs, !bool_decide_eq_false_2 by done. cbn [negb].
  by split_and!.
Qed.

Lemma unsupported_language_rejected_witness :
("klingon"%string ∉ LANGUAGES) ∧
  let w := world_on (mkdate 2024 1 15) [] in
  get_daily_challenge "klingon" w
  = (Raise (HTTPException 404 "Language not supported"), w) ∧
  create_post (mkCreatePost "klingon" "question" "t" "c" "ann") w
  = (Raise (HTTPException 400 "Unsupported language"), w) ∧
  submit_solution 0 (mkCreateSubmission "ann" "klingon" None) w
  = (Raise (HTTPException 400 "Unsupported language"), w) ∧
  get_streak 0 "ann" "klingon" w
  = (Raise (HTTPException 400 "Unsupported language"), w).
Proof.
  assert ("klingon"%string ∉ LANGUAGES) as H by not_in_list.
  split; [exact H|].
  exact (unsupported_language_rejected "klingon" _ 0
           (mkCreatePost "klingon" "question" "t" "c" "ann")
           (mkCreateSubmission "ann" "klingon" None) "ann" H eq_refl eq_refl).
Defined.

(** ** The streak *)

Section streak_routes.

Lemma window_of_elem_of (w : World) (u l : string) (it : doc) :
  it ∈ window_of w u l →
  it ∈ collection w "submission" ∧
  it !! "username"%string = Some u ∧ it !! "language"%string = Some l.
Proof.
  unfold window_of, in_window. intros Hit%subseteq_take.
  destruct (sub_days (reading w 1) 60); [|by apply elem_of_nil in Hit].
  apply list_elem_of_In, List.filter_In in Hit as [Hin Hm].
  apply matches_window in Hm as (? & ? & _).
  by apply list_elem_of_In in Hin.
Qed.

Lemma get_streak_ok (fuel : nat) (u l : string) (w : World) (streak : Z) :
  l ∈ LANGUAGES →
  clock_ok (reading w 0) = true → clock_ok (reading w 1) = true →
  streak_of fuel (window_of w u l) (reading w 0) = Ok streak →
  get_streak fuel u l w =
  (Ok {| sr_streak := streak; sr_days := days_of (window_of w u l) |},
   tick 2 w).
Proof.
  intros Hl H0 H1 Hrun. rewrite get_streak_unfold by done.
  by rewrite (finish_ok _ _ _ _ streak).
Qed.

Lemma submit_solution_ok (fuel : nat) (u l : string) (code : option string)
    (w : World) (streak : Z) :
  l ∈ LANGUAGES →
  clock_ok (reading w 0) = true → clock_ok (reading w 1) = true →
  streak_of fuel (window_of (appended w u l) u l) (reading w 0) = Ok streak →
  submit_solution fuel (mkCreateSubmission u l code) w =
  (Ok {| sb_ok := true; sb_date := strftime (reading w 0);
         sb_streak := streak |},
   tick 2 (appended w u l)).
Proof.
  intros Hl H0 H1 Hrun. rewrite submit_solution_unfold by done.
  cbn [cs_username cs_language]. by rewrite (finish_ok _ _ _ _ streak).
Qed.

Lemma collection_world_on (d : date) (subs : list doc) :
  collection (world_on d subs) "submission" = subs.
Proof. unfold collection, world_on; cbn [store]. by rewrite lookup_singleton_eq. Qed.



End streak_routes.

(** C3.  When no submission of the user in the language is dated today, the
    streak GET /streak returns is 0, whatever earlier dates the store
    holds. *)
Theorem streak_zero_without_today (w : World) (fuel : nat)
    (username language : string) :
  language ∈ LANGUAGES →
  clock_ok (reading w 0) = true → clock_ok (reading w 1) = true →
  (0 < fuel)%nat →
  (∀ it : doc, it ∈ collection w "submission" →
     it !! "username"%string = Some username →
     it !! "language"%string = Some language →
     it !! "date"%string ≠ Some (strftime (reading w 0))) →
  get_streak fuel username language w =
  (Ok {| sr_streak := 0;
         sr_days := days_of (window_of w username language) |},
   tick 2 w).
Proof.
  intros Hl H0 H1 Hfuel Hnone. apply get_streak_ok; [done..|].
  apply streak_of_zero; [|done].
  intros (it & Hit & Hdate)%days_of_elem_of.
  apply window_of_elem_of in Hit as (Hin & Hu & Hlang).
  by apply (Hnone it).
Qed.

Lemma streak_zero_without_today_witness :
  "python"%string ∈ LANGUAGES ∧
  clock_ok (reading w_earlier 0) = true ∧
  clock_ok (reading w_earlier 1) = true ∧
  (0 < 5)%nat ∧
  (∀ it : doc, it ∈ collection w_earlier "submission" →
     it !! "username"%string = Some "ann"%string →
     it !! "language"%string = Some "python"%string →
     it !! "date"%string ≠ Some (strftime (reading w_earlier 0))) ∧
  get_streak 5 "ann" "python" w_earlier =
  (Ok {| sr_streak := 0;
         sr_days := days_of (window_of w_earlier "ann" "python") |},
   tick 2 w_earlier).
Proof.
  assert ("python"%string ∈ LANGUAGES) as Hl by in_list.
  assert (∀ it : doc, it ∈ collection w_earlier "submission" →
            it !! "username"%string = Some "ann"%string →
            it !! "language"%string = Some "python"%string →
            it !! "date"%string ≠ Some (strftime (reading w_earlier 0)))
    as Hnone.
  { intros it Hit _ _. unfold w_earlier in Hit.
    rewrite collection_world_on in Hit.
    repeat (apply elem_of_cons in Hit as [->|Hit]; [by vm_compute|]).
    by apply elem_of_nil in Hit. }
  split_and!; [exact Hl|reflexivity|reflexivity|lia|exact Hnone|].
  exact (streak_zero_without_today w_earlier 5 "ann" "python" Hl
           eq_refl eq_refl ltac:(lia) Hnone).
Defined.



(** C10.  The backward walk ends.  With more fuel than there are distinct
    dates among the returned records, neither route runs out of fuel, in any
    world; and on a supported language under a sane clock both routes
    answer, the same for every such amount of fuel, with a streak that is at
    most the number of distinct dates. *)
Theorem streak_loop_terminates (w : World) (username language : string)
    (code : option string) :
  (∀ fuel,
     (List.length (days_of (window_of w username language)) < fuel)%nat →
     (get_streak fuel username language w).1 ≠ OutOfFuel) ∧
  (∀ fuel,
     (List.length
        (days_of (window_of (appended w username language)
                    username language)) < fuel)%nat →
     (submit_solution fuel (mkCreateSubmission username language code) w).1
     ≠ OutOfFuel) ∧
  (language ∈ LANGUAGES →
   clock_ok (reading w 0) = true → clock_ok (reading w 1) = true →
   (∃ k : nat,
      (k ≤ List.length (days_of (window_of w username language)))%nat ∧
      ∀ fuel,
        (List.length (days_of (window_of w username language)) < fuel)%nat →
        get_streak fuel username language w =
        (Ok {| sr_streak := Z.of_nat k;
               sr_days := days_of (window_of w username language) |},
         tick 2 w)) ∧
   (∃ k : nat,
      (k ≤ List.length
             (days_of (window_of (appended w username language)
                         username language)))%nat ∧
      ∀ fuel,
        (List.length
           (days_of (window_of (appended w username language)
                       username language)) < fuel)%nat →
        submit_solution fuel (mkCreateSubmission username language code) w =
        (Ok {| sb_ok := true; sb_date := strftime (reading w 0);
               sb_streak := Z.of_nat k |},
         tick 2 (appended w username language)))).
Proof.
  split_and!.
  - intros fuel Hfuel.
    destruct (decide (language ∈ LANGUAGES)) as [Hl|Hl].
    + rewrite get_streak_unfold by done. by apply finish_ends.
    + by rewrite get_streak_unsupported.
  - intros fuel Hfuel.
    destruct (decide (language ∈ LANGUAGES)) as [Hl|Hl].
    + rewrite submit_solution_unfold by done. by apply finish_ends.
    + by rewrite submit_solution_unsupported.
  - intros Hl H0 H1. split.
    + destruct (streak_of_total (window_of w username language) (reading w 0))
        as (k & d & Hk & _ & _ & _ & Hrun); [done|apply window_of_length|].
      exists k. split; [done|]. intros fuel Hfuel.
      apply get_streak_ok; auto.
    + destruct (streak_of_total
                  (window_of (appended w username language) username language)
                  (reading w 0))
        as (k & d & Hk & _ & _ & _ & Hrun); [done|apply window_of_length|].
      exists k. split; [done|]. intros fuel Hfuel.
      apply submit_solution_ok; auto.
Qed.

Lemma streak_loop_terminates_witness :
  "python"%string ∈ LANGUAGES ∧
  clock_ok (reading w_two_days 0) = true ∧
  clock_ok (reading w_two_days 1) = true ∧
  (∃ k : nat,
     (k ≤ List.length (days_of (window_of w_two_days "ann" "python")))%nat ∧
     ∀ fuel,
       (List.length (days_of (window_of w_two_days "ann" "python")) < fuel)%nat →
       get_streak fuel "ann" "python" w_two_days =
       (Ok {| sr_streak := Z.of_nat k;
              sr_days := days_of (window_of w_two_days "ann" "python") |},
        tick 2 w_two_days)) ∧
  (∃ k : nat,
     (k ≤ List.length
            (days_of (window_of (appended w_two_days "ann" "python")
                        "ann" "python")))%nat ∧
     ∀ fuel,
       (List.length
          (days_of (window_of (appended w_two_days "ann" "python")
                      "ann" "python")) < fuel)%nat →
       submit_solution fuel (mkCreateSubmission "ann" "python" None)
         w_two_days =
       (Ok {| sb_ok := true; sb_date := strftime (reading w_two_days 0);
              sb_streak := Z.of_nat k |},
        tick 2 (appended w_two_days "ann" "python"))).
Proof.
  assert ("python"%string ∈ LANGUAGES) as Hl by in_list.
  split_and!; [exact Hl|reflexivity|reflexivity|..];
    apply (proj2 (proj2 (streak_loop_terminates w_two_days "ann" "python"
                           None)) Hl eq_refl eq_refl).
Defined.



Example get_streak_two_days :
  (get_streak 1001 "ann" "python" w_two_days).1 =
  Ok {| sr_streak := 2; sr_days := ["2024-01-14"; "2024-01-15"]%string |}.
Proof. vm_compute. reflexivity. Qed.

(** ** Duplicates, the window and its cap *)

Section window.

Lemma submission_fields (u l s : string) :
  submission u l s !! "username"%string = Some u ∧
  submission u l s !! "language"%string = Some l ∧
  submission u l s !! "date"%string = Some s.
Proof. unfold submission. by rewrite !lookup_insert. Qed.

Lemma matches_same_fields (u l start_date : string) (a b : doc) :
  a !! "username"%string = b !! "username"%string →
  a !! "language"%string = b !! "language"%string →
  a !! "date"%string = b !! "date"%string →
  matches (window_filter u l start_date) a
  = matches (window_filter u l start_date) b.
Proof.
  intros Hu Hl Hd. unfold matches, window_filter; cbn [forallb fst snd].
  by rewrite Hu, Hl, Hd.
Qed.

(** Appending a record whose date an accepted record already has does not
    change the distinct dates of the first 1000 accepted records. *)
Lemma days_of_dup (f : doc → bool) (coll : list doc) (dup it : doc) :
  it ∈ coll → f dup = f it →
  dup !! "date"%string = it !! "date"%string →
  days_of (take 1000 (List.filter f (coll ++ [dup])))
  = days_of (take 1000 (List.filter f coll)).
Proof.
  intros Hit Hf Hdate. rewrite List.filter_app. cbn [List.filter].
  destruct (f dup) eqn:Edup; [|by rewrite app_nil_r].
  assert (it ∈ List.filter f coll) as Hin.
  { apply list_elem_of_In, List.filter_In. by rewrite <- list_elem_of_In. }
  set (ms := List.filter f coll) in *.
  destruct (decide (1000 ≤ List.length ms)%nat) as [Hge|Hlt].
  - by rewrite take_app_le.
  - rewrite !take_ge by (rewrite ?length_app; simpl; lia).
    unfold days_of. do 2 f_equal. apply set_eq. intros s.
    unfold dates_of. rewrite omap_app, !elem_of_list_to_set, elem_of_app.
    split; [|by left]. intros [?|Hs]; [done|].
    apply list_elem_of_omap in Hs as (x & ->%list_elem_of_singleton & Hs).
    apply list_elem_of_omap. exists it. by rewrite <- Hdate.
Qed.

Lemma in_window_with_submission (w : World) (u l : string) (record : doc)
    (start : date) :
  sub_days (reading w 1) 60 = Some start →
  in_window (with_submission record w) u l =
  List.filter (matches (window_filter u l (strftime start)))
    (collection w "submission" ++ [record]).
Proof.
  intros E. unfold in_window.
  change (reading (with_submission record w) 1) with (reading w 1).
  by rewrite E, collection_with_submission.
Qed.

Lemma window_of_dup (w : World) (u l : string) (dup it : doc) :
  it ∈ collection w "submission" →
  dup !! "username"%string = it !! "username"%string →
  dup !! "language"%string = it !! "language"%string →
  dup !! "date"%string = it !! "date"%string →
  days_of (window_of (with_submission dup w) u l) = days_of (window_of w u l).
Proof.
  intros Hit Hu Hl Hd. unfold window_of.
  destruct (sub_days (reading w 1) 60) as [start|] eqn:E.
  - rewrite (in_window_with_submission _ _ _ _ _ E).
    unfold in_window. rewrite E.
    apply (days_of_dup _ _ dup it); [done| |done].
    by apply matches_same_fields.
  - unfold in_window.
    change (reading (with_submission dup w) 1) with (reading w 1).
    by rewrite E.
Qed.

(** A streak route depends on the world through two clock readings and
    the distinct dates of the returned records. *)
Lemma finish_ext {A} (fuel : nat) (w1 w2 : World) (items1 items2 : list doc)
    (response : Z → A) :
  reading w1 0 = reading w2 0 → reading w1 1 = reading w2 1 →
  days_of items1 = days_of items2 →
  finish fuel w1 items1 response = finish fuel w2 items2 response.
Proof. intros E0 E1 Ed. unfold finish. by rewrite E0, E1, Ed. Qed.

(** The record of today passes the filter when the window does not start
    after today. *)
Lemma today_in_window (u l : string) (today start : date) :
  valid_date today = true → valid_date start = true → date_le start today →
  matches (window_filter u l (strftime start))
    (submission u l (strftime today)) = true.
Proof.
  intros Hv Hvs Hle. apply matches_window.
  destruct (submission_fields u l (strftime today)) as (-> & -> & ->).
  split_and!; [done..|]. eexists. split; [done|]. by apply strftime_le.
Qed.

(** The window starts before today when both clock readings show the same
    day. *)
Lemma same_day_window (w : World) (start : date) :
  valid_date (reading w 0) = true → reading w 1 = reading w 0 →
  sub_days (reading w 1) 60 = Some start → date_le start (reading w 0).
Proof.
  intros Hv Hsame Hstart. rewrite Hsame in Hstart.
  destruct (sub_days_rank _ _ _ Hv Hstart) as [Hvs _].
  apply strftime_le; [done..|]. by eapply sub_days_le.
Qed.

End window.

(** C4.  Duplicates collapse.  Appending to the store a record whose
    username, language and date an existing record already has leaves the
    answer of GET /streak, streak and days, as it was; and a second
    POST /submit on the same day answers as the first one did. *)
Theorem duplicate_submission_same_streak (w : World) (fuel : nat)
    (username language : string) (dup it : doc) (payload : CreateSubmission) :
  it ∈ collection w "submission" →
  dup !! "username"%string = it !! "username"%string →
  dup !! "language"%string = it !! "language"%string →
  dup !! "date"%string = it !! "date"%string →
  (get_streak fuel username language (with_submission dup w)).1
  = (get_streak fuel username language w).1 ∧
  (reading w 2 = reading w 0 → reading w 3 = reading w 1 →
   (submit_solution fuel payload (submit_solution fuel payload w).2).1
   = (submit_solution fuel payload w).1).
Proof.
  intros Hit Hu Hl Hd. split.
  - destruct (decide (language ∈ LANGUAGES)) as [Hlang|Hlang].
    + rewrite !get_streak_unfold by done. cbn [fst].
      rewrite (window_of_dup w username language dup it) by done.
      by apply finish_ext; [..|apply window_of_dup with it].
    + by rewrite !get_streak_unsupported.
  - intros E2 E3.
    destruct (decide (cs_language payload ∈ LANGUAGES)) as [Hlang|Hlang].
    + rewrite (submit_solution_unfold fuel payload w) by done. cbn [fst snd].
      rewrite submit_solution_unfold by done. cbn [fst].
      set (u := cs_username payload). set (l := cs_language payload).
      set (w1 := tick 2 (appended w u l)).
      assert (reading w1 0 = reading w 0) as E0 by exact E2.
      assert (reading w1 1 = reading w 1) as E1 by exact E3.
      rewrite E0. apply finish_ext; [done..|].
      unfold appended at 1. rewrite E0.
      set (rec := submission u l (strftime (reading w 0))).
      unfold window_of, in_window.
      change (reading (with_submission rec w1) 1) with (reading w1 1).
      change (reading (appended w u l) 1) with (reading w 1).
      rewrite E1. destruct (sub_days (reading w 1) 60); [|done].
      rewrite collection_with_submission.
      change (collection w1 "submission")
        with (collection (appended w u l) "submission").
      apply (days_of_dup _ _ rec rec); [|done..].
      unfold appended. fold rec. rewrite collection_with_submission.
      apply elem_of_app. right. by apply list_elem_of_singleton.
    + by rewrite !submit_solution_unsupported.
Qed.

Lemma duplicate_submission_same_streak_witness :
  submission "ann" "python" "2024-01-15" ∈ collection w_two_days "submission" ∧
  dup_of_today !! "username"%string
  = submission "ann" "python" "2024-01-15" !! "username"%string ∧
  dup_of_today !! "language"%string
  = submission "ann" "python" "2024-01-15" !! "language"%string ∧
  dup_of_today !! "date"%string
  = submission "ann" "python" "2024-01-15" !! "date"%string ∧
  reading w_two_days 2 = reading w_two_days 0 ∧
  reading w_two_days 3 = reading w_two_days 1 ∧
  (get_streak 1001 "ann" "python" (with_submission dup_of_today w_two_days)).1
  = (get_streak 1001 "ann" "python" w_two_days).1 ∧
  (submit_solution 1001 (mkCreateSubmission "ann" "python" None)
     (submit_solution 1001 (mkCreateSubmission "ann" "python" None)
        w_two_days).2).1
  = (submit_solution 1001 (mkCreateSubmission "ann" "python" None)
       w_two_days).1.
Proof.
  assert (submission "ann" "python" "2024-01-15"
          ∈ collection w_two_days "submission") as Hit.
  { unfold w_two_days. rewrite collection_world_on. repeat constructor. }
  destruct (duplicate_submission_same_streak w_two_days 1001 "ann" "python"
              dup_of_today (submission "ann" "python" "2024-01-15")
              (mkCreateSubmission "ann" "python" None)
              Hit eq_refl eq_refl eq_refl) as [Tget Tsub].
  split_and!; [exact Hit|reflexivity..|exact Tget|exact (Tsub eq_refl eq_refl)].
Defined.

Example get_streak_with_duplicate :
  (get_streak 1001 "ann" "python" (with_submission dup_of_today w_two_days)).1
  = Ok {| sr_streak := 2; sr_days := ["2024-01-14"; "2024-01-15"]%string |}.
Proof. vm_compute. reflexivity. Qed.




(** C6.  The window is not exactly the 60 days that end today.  The query
    is capped: after 1000 records of yesterday, a record of today, of the
    same user and language, is left out of days and streak.  And the window
    has no upper end: a record dated tomorrow is listed in days. *)
Lemma window_not_exact_counterexample :
  (get_streak 1001 "ann" "python" w_capped).1
  = Ok {| sr_streak := 0; sr_days := ["2024-01-14"]%string |} ∧
  submission "ann" "python" "2024-01-15" ∈ collection w_capped "submission" ∧
  strftime (reading w_capped 0) = "2024-01-15"%string ∧
  (get_streak 1001 "ann" "python" w_future).1
  = Ok {| sr_streak := 0; sr_days := ["2024-01-16"]%string |} ∧
  strftime (reading w_future 0) = "2024-01-15"%string ∧
  strftime (reading w_future 1) = "2024-01-15"%string.
Proof.
  split_and!.
  - vm_compute. reflexivity.
  - unfold w_capped. rewrite collection_world_on.
    apply elem_of_app. right. by apply list_elem_of_singleton.
  - reflexivity.
  - vm_compute. reflexivity.
  - reflexivity.
  - reflexivity.
Qed.

(** C6, amended.  The streak routes consider the first 1000 records, in
    store order, among the submissions of the user in the language whose
    date string is not below the formatted day 60 days before the second
    clock reading; on formatted calendar days that order is the order of the
    dates.  Every day listed comes from such a record; when there are at
    most 1000 of them, each of their dates is listed; the streak is at most
    the number of days listed; and the answer of either route does not
    change with anything else in the store. *)
Theorem window_records_considered (w : World) (fuel : nat)
    (username language : string) (code : option string) :
  language ∈ LANGUAGES →
  clock_ok (reading w 0) = true → clock_ok (reading w 1) = true →
  (1000 < fuel)%nat →
  ∃ r start,
    sub_days (reading w 1) 60 = Some start ∧
    get_streak fuel username language w = (Ok r, tick 2 w) ∧
    (∀ it : doc,
       it ∈ in_window w username language ↔
       it ∈ collection w "submission" ∧
       it !! "username"%string = Some username ∧
       it !! "language"%string = Some language ∧
       ∃ s, it !! "date"%string = Some s ∧
            str_le (strftime start) s = true) ∧
    (∀ d, valid_date d = true →
          str_le (strftime start) (strftime d) = true ↔ date_le start d) ∧
    sr_days r = days_of (take 1000 (in_window w username language)) ∧
    0 ≤ sr_streak r ≤ Z.of_nat (List.length (sr_days r)) ∧
    (∀ s, s ∈ sr_days r →
          ∃ it : doc, it ∈ in_window w username language ∧
                      it !! "date"%string = Some s) ∧
    ((List.length (in_window w username language) ≤ 1000)%nat →
     ∀ (it : doc) s, it ∈ in_window w username language →
                     it !! "date"%string = Some s → s ∈ sr_days r) ∧
    (∀ w2, reading w2 0 = reading w 0 → reading w2 1 = reading w 1 →
           in_window w2 username language = in_window w username language →
           (get_streak fuel username language w2).1 = Ok r) ∧
    (∀ w2, reading w2 0 = reading w 0 → reading w2 1 = reading w 1 →
           in_window (appended w2 username language) username language
           = in_window (appended w username language) username language →
           (submit_solution fuel
              (mkCreateSubmission username language code) w2).1
           = (submit_solution fuel
                (mkCreateSubmission username language code) w).1).
Proof.
  intros Hl H0 H1 Hfuel.
  destruct (clock_ok_sub_days _ 60 H1) as (start & Hstart & Hvstart); [lia|].
  destruct (streak_of_total (window_of w username language) (reading w 0))
    as (k & d & Hk & _ & _ & _ & Hrun); [done|apply window_of_length|].
  pose proof (days_of_length (window_of w username language)) as Hdl.
  pose proof (window_of_length w username language) as Hwl.
  assert (streak_of fuel (window_of w username language) (reading w 0)
          = Ok (Z.of_nat k)) as Hk' by (apply Hrun; lia).
  eexists _, start. split; [done|].
  split; [by apply get_streak_ok|]. cbn [sr_days sr_streak].
  split_and!.
  - intros it. unfold in_window. rewrite Hstart.
    by rewrite list_elem_of_In, List.filter_In, <- list_elem_of_In,
      matches_window.
  - intros d' Hd'. by apply strftime_le.
  - done.
  - lia.
  - lia.
  - intros s (it & Hit%subseteq_take & Hs)%days_of_elem_of. eauto.
  - intros Hle it s Hit Hs. apply days_of_elem_of. exists it.
    unfold window_of. by rewrite take_ge.
  - intros w2 E0 E1 Ew. rewrite get_streak_unfold by done. cbn [fst].
    assert (window_of w2 username language = window_of w username language)
      as -> by (unfold window_of; by rewrite Ew).
    rewrite (finish_ext fuel w2 w _ (window_of w username language))
      by done.
    by rewrite (finish_ok fuel w _ _ (Z.of_nat k)).
  - intros w2 E0 E1 Ew. rewrite !submit_solution_unfold by done.
    cbn [fst cs_username cs_language]. rewrite E0.
    apply finish_ext; [done..|].
    unfold window_of. by rewrite Ew.
Qed.

Lemma window_records_considered_witness :
  "python"%string ∈ LANGUAGES ∧
  clock_ok (reading w_two_days 0) = true ∧
  clock_ok (reading w_two_days 1) = true ∧
  (1000 < 1001)%nat ∧
  ∃ r start,
    sub_days (reading w_two_days 1) 60 = Some start ∧
    get_streak 1001 "ann" "python" w_two_days = (Ok r, tick 2 w_two_days) ∧
    (∀ it : doc,
       it ∈ in_window w_two_days "ann" "python" ↔
       it ∈ collection w_two_days "submission" ∧
       it !! "username"%string = Some "ann"%string ∧
       it !! "language"%string = Some "python"%string ∧
       ∃ s, it !! "date"%string = Some s ∧
            str_le (strftime start) s = true) ∧
    (∀ d, valid_date d = true →
          str_le (strftime start) (strftime d) = true ↔ date_le start d) ∧
    sr_days r = days_of (take 1000 (in_window w_two_days "ann" "python")) ∧
    0 ≤ sr_streak r ≤ Z.of_nat (List.length (sr_days r)) ∧
    (∀ s, s ∈ sr_days r →
          ∃ it : doc, it ∈ in_window w_two_days "ann" "python" ∧
                      it !! "date"%string = Some s) ∧
    ((List.length (in_window w_two_days "ann" "python") ≤ 1000)%nat →
     ∀ (it : doc) s, it ∈ in_window w_two_days "ann" "python" →
                     it !! "date"%string = Some s → s ∈ sr_days r) ∧
    (∀ w2, reading w2 0 = reading w_two_days 0 →
           reading w2 1 = reading w_two_days 1 →
           in_window w2 "ann" "python" = in_window w_two_days "ann" "python" →
           (get_streak 1001 "ann" "python" w2).1 = Ok r) ∧
    (∀ w2, reading w2 0 = reading w_two_days 0 →
           reading w2 1 = reading w_two_days 1 →
           in_window (appended w2 "ann" "python") "ann" "python"
           = in_window (appended w_two_days "ann" "python") "ann" "python" →
           (submit_solution 1001
              (mkCreateSubmission "ann" "python" None) w2).1
           = (submit_solution 1001
                (mkCreateSubmission "ann" "python" None) w_two_days).1).
Proof.
  assert ("python"%string ∈ LANGUAGES) as Hl by in_list.
  split_and!; [exact Hl|reflexivity|reflexivity|lia|].
  exact (window_records_considered w_two_days 1001 "ann" "python" None Hl
           eq_refl eq_refl ltac:(lia)).
Defined.

(** * The rest of the service: properties *)

(** ** Posts and comments *)

Section posts.

Lemma stringify_id_has_id (it : doc) :
  is_Some (stringify_id it !! "_id"%string).
Proof. unfold stringify_id. rewrite lookup_insert_eq. by eexists. Qed.

Lemma stringify_id_other (it : doc) (field : string) :
  field ≠ "_id"%string → stringify_id it !! field = it !! field.
Proof. intros Hf. unfold stringify_id. by rewrite lookup_insert_ne. Qed.

Lemma truthy_Some (s : string) : truthy (Some s) = true ↔ s ≠ EmptyString.
Proof.
  unfold truthy. rewrite negb_true_iff, bool_decide_eq_false. done.
Qed.

Lemma matches_app (f1 f2 : list (string * cond)) (d : doc) :
  matches (f1 ++ f2) d = matches f1 d && matches f2 d.
Proof. unfold matches. apply forallb_app. Qed.

Lemma matches_filter_on (field : string) (value : option string) (d : doc) :
  matches (filter_on field value) d = true ↔
  ∀ s, value = Some s → s ≠ EmptyString → d !! field = Some s.
Proof.
  destruct value as [s|]; cbn [filter_on]; [|by split].
  destruct (truthy (Some s)) eqn:E.
  - apply truthy_Some in E. unfold matches; cbn [forallb fst snd holds].
    rewrite andb_true_r. destruct (d !! field) as [v|].
    + rewrite bool_decide_eq_true. split.
      * by intros -> ? [= <-] _.
      * intros H. by injection (H s eq_refl E).
    + split; [done|]. intros H. by specialize (H s eq_refl E).
  - split; [|done]. intros _ ? [= <-] Hs. apply truthy_Some in Hs. congruence.
Qed.

Lemma matches_posts_filter (language kind : option string) (d : doc) :
  matches (posts_filter language kind) d = true ↔
  (∀ l, language = Some l → l ≠ EmptyString →
        d !! "language"%string = Some l) ∧
  (∀ k, kind = Some k → k ≠ EmptyString → d !! "kind"%string = Some k).
Proof.
  unfold posts_filter.
  by rewrite matches_app, andb_true_iff, !matches_filter_on.
Qed.

Lemma collection_create_document (name name' : string) (record : doc)
    (w : World) :
  collection (create_document name record w).2 name' =
  if decide (name = name') then collection w name ++ [record]
  else collection w name'.
Proof.
  unfold create_document, collection at 1; cbn [snd store].
  destruct (decide (name = name')) as [<-|Hne].
  - by rewrite lookup_insert_eq.
  - by rewrite lookup_insert_ne.
Qed.

Lemma model_dump_fields (p : CreatePost) :
  model_dump p !! "language"%string = Some (cp_language p) ∧
  model_dump p !! "kind"%string = Some (cp_kind p) ∧
  model_dump p !! "title"%string = Some (cp_title p) ∧
  model_dump p !! "content"%string = Some (cp_content p) ∧
  model_dump p !! "author"%string = Some (cp_author p).
Proof. unfold model_dump. by rewrite !lookup_insert. Qed.

Lemma model_dump_comment_fields (c : CreateComment) :
  model_dump_comment c !! "post_id"%string = Some (cc_post_id c) ∧
  model_dump_comment c !! "author"%string = Some (cc_author c) ∧
  model_dump_comment c !! "content"%string = Some (cc_content c).
Proof. unfold model_dump_comment. by rewrite !lookup_insert. Qed.

Lemma supported_nonempty (l : string) : l ∈ LANGUAGES → l ≠ EmptyString.
Proof. revert l. by apply supported_cases. Qed.

(** [create_post] on an accepted payload. *)
Lemma create_post_run (p : CreatePost) (w : World) :
  cp_language p ∈ LANGUAGES →
  cp_kind p ∈ ["project"; "question"]%string →
  create_post p w =
  (Ok (generated_id (List.length (collection w "communitypost"))),
   (create_document "communitypost" (model_dump p) w).2).
Proof.
  intros Hl Hk. unfold create_post.
  by rewrite !bool_decide_eq_true_2.
Qed.

(** What a query answers: the first [limit] records that pass, each with
    its identifier made a string. *)
Lemma listed_items (name : string) (filt : list (string * cond))
    (limit : nat) (w : World) (it : doc) :
  it ∈ stringify_id <$>
         take limit (List.filter (matches filt) (collection w name)) →
  is_Some (it !! "_id"%string) ∧
  ∃ stored, stored ∈ collection w name ∧ matches filt stored = true ∧
            ∀ field, field ≠ "_id"%string → it !! field = stored !! field.
Proof.
  intros (stored & -> & Hin%subseteq_take)%list_elem_of_fmap.
  apply list_elem_of_In, List.filter_In in Hin as [Hin%list_elem_of_In Hm].
  split; [apply stringify_id_has_id|].
  exists stored. split_and!; [done..|]. apply stringify_id_other.
Qed.

End posts.

(** X1.  POST /posts with a supported language and a kind other than
    "project" and "question" is refused with status 400, "Invalid kind",
    and writes nothing. *)
Theorem create_post_invalid_kind (p : CreatePost) (w : World) :
  cp_language p ∈ LANGUAGES →
  cp_kind p ∉ ["project"; "question"]%string →
  create_post p w = (Raise (HTTPException 400 "Invalid kind"), w).
Proof.
  intros Hl Hk. unfold create_post.
  by rewrite bool_decide_eq_true_2, bool_decide_eq_false_2.
Qed.

Lemma create_post_invalid_kind_witness :
  "go"%string ∈ LANGUAGES ∧
  ("poll"%string ∉ ["project"; "question"]%string) ∧
  create_post (mkCreatePost "go" "poll" "t" "c" "ann") (empty_world jan15)
  = (Raise (HTTPException 400 "Invalid kind"), empty_world jan15).
Proof.
  assert ("go"%string ∈ LANGUAGES) as Hl by in_list.
  assert ("poll"%string ∉ ["project"; "question"]%string) as Hk by not_in_list.
  split_and!; [exact Hl|exact Hk|].
  exact (create_post_invalid_kind (mkCreatePost "go" "poll" "t" "c" "ann")
           (empty_world jan15) Hl Hk).
Defined.

(** X2.  A post that POST /posts accepts is found again by GET /posts asked
    for its language and kind, as the last item and with language, kind,
    title, content and author as they were sent, as long as fewer than
    [limit] posts of that language and kind were stored before it. *)
Theorem post_round_trip (p : CreatePost) (limit : nat) (w : World) :
  cp_language p ∈ LANGUAGES →
  cp_kind p ∈ ["project"; "question"]%string →
  (List.length
     (List.filter
        (matches (posts_filter (Some (cp_language p)) (Some (cp_kind p))))
        (collection w "communitypost")) < limit)%nat →
  ∃ id w' items it,
    create_post p w = (Ok id, w') ∧
    list_posts (Some (cp_language p)) (Some (cp_kind p)) limit w'
    = (Ok items, w') ∧
    last items = Some it ∧
    it !! "language"%string = Some (cp_language p) ∧
    it !! "kind"%string = Some (cp_kind p) ∧
    it !! "title"%string = Some (cp_title p) ∧
    it !! "content"%string = Some (cp_content p) ∧
    it !! "author"%string = Some (cp_author p).
Proof.
  intros Hl Hk Hlen.
  destruct (model_dump_fields p) as (Fl & Fk & Ft & Fc & Fa).
  exists (generated_id (List.length (collection w "communitypost"))),
    (create_document "communitypost" (model_dump p) w).2,
    (stringify_id <$>
       take limit
         (List.filter
            (matches (posts_filter (Some (cp_language p)) (Some (cp_kind p))))
            (collection (create_document "communitypost" (model_dump p) w).2
               "communitypost"))),
    (stringify_id (model_dump p)).
  split; [by apply create_post_run|].
  split; [reflexivity|].
  rewrite collection_create_document, decide_True by done.
  rewrite List.filter_app. cbn [List.filter].
  assert (matches (posts_filter (Some (cp_language p)) (Some (cp_kind p)))
            (model_dump p) = true) as ->.
  { apply matches_posts_filter. split; by intros ? [= <-] _. }
  rewrite take_ge by (rewrite length_app; simpl; lia).
  rewrite fmap_app. cbn [fmap list_fmap]. rewrite last_snoc.
  by rewrite !stringify_id_other.
Qed.

Lemma post_round_trip_witness :
  cp_language a_post ∈ LANGUAGES ∧
  cp_kind a_post ∈ ["project"; "question"]%string ∧
  (List.length
     (List.filter
        (matches (posts_filter (Some (cp_language a_post))
                    (Some (cp_kind a_post))))
        (collection (empty_world jan15) "communitypost")) < 25)%nat ∧
  ∃ id w' items it,
    create_post a_post (empty_world jan15) = (Ok id, w') ∧
    list_posts (Some (cp_language a_post)) (Some (cp_kind a_post)) 25 w'
    = (Ok items, w') ∧
    last items = Some it ∧
    it !! "language"%string = Some (cp_language a_post) ∧
    it !! "kind"%string = Some (cp_kind a_post) ∧
    it !! "title"%string = Some (cp_title a_post) ∧
    it !! "content"%string = Some (cp_content a_post) ∧
    it !! "author"%string = Some (cp_author a_post).
Proof.
  assert (cp_language a_post ∈ LANGUAGES) as Hl by (cbn; in_list).
  assert (cp_kind a_post ∈ ["project"; "question"]%string) as Hk
    by (cbn; repeat constructor).
  assert (List.length
            (List.filter
               (matches (posts_filter (Some (cp_language a_post))
                           (Some (cp_kind a_post))))
               (collection (empty_world jan15) "communitypost")) < 25)%nat
    as Hlen by (vm_compute; lia).
  split_and!; [exact Hl|exact Hk|exact Hlen|].
  exact (post_round_trip a_post 25 (empty_world jan15) Hl Hk Hlen).
Defined.

(** X3.  GET /posts never fails and never writes.  It returns at most
    [limit] items; each is a stored post with its "_id" made a string and
    every other field untouched, of the language asked for and of the kind
    asked for, where an argument left out or empty asks for nothing; and
    when at most [limit] stored posts qualify, all of them are returned. *)
Theorem list_posts_returns_matching (language kind : option string)
    (limit : nat) (w : World) :
  (0 < limit)%nat →
  ∃ items,
    list_posts language kind limit w = (Ok items, w) ∧
    (List.length items ≤ limit)%nat ∧
    (∀ it : doc, it ∈ items →
       is_Some (it !! "_id"%string) ∧
       ∃ stored : doc,
         stored ∈ collection w "communitypost" ∧
         (∀ field, field ≠ "_id"%string → it !! field = stored !! field) ∧
         (∀ l, language = Some l → l ≠ EmptyString →
               stored !! "language"%string = Some l) ∧
         (∀ k, kind = Some k → k ≠ EmptyString →
               stored !! "kind"%string = Some k)) ∧
    ((List.length
        (List.filter (matches (posts_filter language kind))
           (collection w "communitypost")) ≤ limit)%nat →
     ∀ stored : doc,
       stored ∈ collection w "communitypost" →
       (∀ l, language = Some l → l ≠ EmptyString →
             stored !! "language"%string = Some l) →
       (∀ k, kind = Some k → k ≠ EmptyString →
             stored !! "kind"%string = Some k) →
       stringify_id stored ∈ items).
Proof.
  intros _. eexists. split; [reflexivity|]. split_and!.
  - rewrite length_fmap, length_take. lia.
  - intros it (Hid & stored & Hin & Hm & Hf)%listed_items.
    apply matches_posts_filter in Hm as [Hl Hk]. split; [done|].
    by exists stored.
  - intros Hlen stored Hin Hl Hk. rewrite take_ge by done.
    apply list_elem_of_fmap. exists stored. split; [done|].
    apply list_elem_of_In, List.filter_In. split; [by apply list_elem_of_In|].
    by apply matches_posts_filter.
Qed.

Lemma list_posts_returns_matching_witness :
  (0 < 25)%nat ∧
  ∃ items,
    list_posts (Some "rust"%string) (Some EmptyString) 25
      (create_post a_post (empty_world jan15)).2
    = (Ok items, (create_post a_post (empty_world jan15)).2) ∧
    (List.length items ≤ 25)%nat ∧
    (∀ it : doc, it ∈ items →
       is_Some (it !! "_id"%string) ∧
       ∃ stored : doc,
         stored ∈ collection (create_post a_post (empty_world jan15)).2
                    "communitypost" ∧
         (∀ field, field ≠ "_id"%string → it !! field = stored !! field) ∧
         (∀ l, Some "rust"%string = Some l → l ≠ EmptyString →
               stored !! "language"%string = Some l) ∧
         (∀ k, Some EmptyString = Some k → k ≠ EmptyString →
               stored !! "kind"%string = Some k)) ∧
    ((List.length
        (List.filter
           (matches (posts_filter (Some "rust"%string) (Some EmptyString)))
           (collection (create_post a_post (empty_world jan15)).2
              "communitypost")) ≤ 25)%nat →
     ∀ stored : doc,
       stored ∈ collection (create_post a_post (empty_world jan15)).2
                  "communitypost" →
       (∀ l, Some "rust"%string = Some l → l ≠ EmptyString →
             stored !! "language"%string = Some l) →
       (∀ k, Some EmptyString = Some k → k ≠ EmptyString →
             stored !! "kind"%string = Some k) →
       stringify_id stored ∈ items).
Proof.
  split; [lia|].
  exact (list_posts_returns_matching (Some "rust"%string) (Some EmptyString)
           25 (create_post a_post (empty_world jan15)).2 ltac:(lia)).
Defined.

Example list_posts_empty_kind :
  (list_posts (Some "rust"%string) (Some EmptyString) 25
     (create_post a_post (empty_world jan15)).2).1
  = Ok [stringify_id (model_dump a_post)].
Proof. vm_compute. reflexivity. Qed.

(** X4.  POST /comments checks nothing: it stores the comment whatever
    posts exist, touching no other collection, and GET /comments for its
    post returns it, as the last item and with post, author and content as
    they were sent, as long as fewer than [limit] comments of that post were
    stored before it. *)
Theorem comment_round_trip (c : CreateComment) (limit : nat) (w : World) :
  (List.length
     (List.filter (matches [("post_id"%string, CEq (cc_post_id c))])
        (collection w "comment")) < limit)%nat →
  ∃ id w' items it,
    add_comment c w = (Ok id, w') ∧
    collection w' "comment" = collection w "comment" ++ [model_dump_comment c] ∧
    (∀ name, name ≠ "comment"%string → collection w' name = collection w name) ∧
    list_comments (cc_post_id c) limit w' = (Ok items, w') ∧
    last items = Some it ∧
    it !! "post_id"%string = Some (cc_post_id c) ∧
    it !! "author"%string = Some (cc_author c) ∧
    it !! "content"%string = Some (cc_content c).
Proof.
  intros Hlen.
  destruct (model_dump_comment_fields c) as (Fp & Fa & Fc).
  exists (generated_id (List.length (collection w "comment"))),
    (create_document "comment" (model_dump_comment c) w).2,
    (stringify_id <$>
       take limit
         (List.filter (matches [("post_id"%string, CEq (cc_post_id c))])
            (collection (create_document "comment" (model_dump_comment c) w).2
               "comment"))),
    (stringify_id (model_dump_comment c)).
  split; [reflexivity|]. split_and!.
  - by rewrite collection_create_document, decide_True.
  - intros name Hne. by rewrite collection_create_document, decide_False.
  - reflexivity.
  - rewrite collection_create_document, decide_True by done.
    rewrite List.filter_app. cbn [List.filter].
    assert (matches [("post_id"%string, CEq (cc_post_id c))]
              (model_dump_comment c) = true) as ->.
    { unfold matches; cbn [forallb fst snd holds]. rewrite Fp.
      by rewrite bool_decide_eq_true_2. }
    rewrite take_ge by (rewrite length_app; simpl; lia).
    rewrite fmap_app. cbn [fmap list_fmap]. by rewrite last_snoc.
  - by rewrite stringify_id_other.
  - by rewrite stringify_id_other.
  - by rewrite stringify_id_other.
Qed.

Lemma comment_round_trip_witness :
  (List.length
     (List.filter (matches [("post_id"%string, CEq (cc_post_id a_comment))])
        (collection (empty_world jan15) "comment")) < 100)%nat ∧
  ∃ id w' items it,
    add_comment a_comment (empty_world jan15) = (Ok id, w') ∧
    collection w' "comment"
    = collection (empty_world jan15) "comment"
      ++ [model_dump_comment a_comment] ∧
    (∀ name, name ≠ "comment"%string →
             collection w' name = collection (empty_world jan15) name) ∧
    list_comments (cc_post_id a_comment) 100 w' = (Ok items, w') ∧
    last items = Some it ∧
    it !! "post_id"%string = Some (cc_post_id a_comment) ∧
    it !! "author"%string = Some (cc_author a_comment) ∧
    it !! "content"%string = Some (cc_content a_comment).
Proof.
  assert (List.length
            (List.filter
               (matches [("post_id"%string, CEq (cc_post_id a_comment))])
               (collection (empty_world jan15) "comment")) < 100)%nat
    as Hlen by (vm_compute; lia).
  split; [exact Hlen|].
  exact (comment_round_trip a_comment 100 (empty_world jan15) Hlen).
Defined.

(** X5.  GET /comments/{post_id} never fails and never writes.  It returns
    at most [limit] items, each a stored comment of that very post with its
    "_id" made a string and every other field untouched; and when the post
    has at most [limit] comments, all of them are returned. *)
Theorem list_comments_of_the_post (post_id : string) (limit : nat)
    (w : World) :
  (0 < limit)%nat →
  ∃ items,
    list_comments post_id limit w = (Ok items, w) ∧
    (List.length items ≤ limit)%nat ∧
    (∀ it : doc, it ∈ items →
       it !! "post_id"%string = Some post_id ∧
       is_Some (it !! "_id"%string) ∧
       ∃ stored : doc,
         stored ∈ collection w "comment" ∧
         ∀ field, field ≠ "_id"%string → it !! field = stored !! field) ∧
    ((List.length
        (List.filter (matches [("post_id"%string, CEq post_id)])
           (collection w "comment")) ≤ limit)%nat →
     ∀ stored : doc,
       stored ∈ collection w "comment" →
       stored !! "post_id"%string = Some post_id →
       stringify_id stored ∈ items).
Proof.
  intros _. eexists. split; [reflexivity|].
  assert (∀ d : doc, matches [("post_id"%string, CEq post_id)] d = true ↔
                     d !! "post_id"%string = Some post_id) as Hm.
  { intros d. unfold matches; cbn [forallb fst snd holds].
    rewrite andb_true_r. destruct (d !! "post_id"%string) as [v|].
    - rewrite bool_decide_eq_true. split; [by intros ->|by intros [= ->]].
    - by split. }
  split_and!.
  - rewrite length_fmap, length_take. lia.
  - intros it (Hid & stored & Hin & Hs & Hf)%listed_items.
    apply Hm in Hs. split_and!; [by rewrite Hf|done|by exists stored].
  - intros Hlen stored Hin Hp. rewrite take_ge by done.
    apply list_elem_of_fmap. exists stored. split; [done|].
    apply list_elem_of_In, List.filter_In. split; [by apply list_elem_of_In|].
    by apply Hm.
Qed.

Lemma list_comments_of_the_post_witness :
  (0 < 100)%nat ∧
  ∃ items,
    list_comments "7" 100 (add_comment a_comment (empty_world jan15)).2
    = (Ok items, (add_comment a_comment (empty_world jan15)).2) ∧
    (List.length items ≤ 100)%nat ∧
    (∀ it : doc, it ∈ items →
       it !! "post_id"%string = Some "7"%string ∧
       is_Some (it !! "_id"%string) ∧
       ∃ stored : doc,
         stored ∈ collection (add_comment a_comment (empty_world jan15)).2
                    "comment" ∧
         ∀ field, field ≠ "_id"%string → it !! field = stored !! field) ∧
    ((List.length
        (List.filter (matches [("post_id"%string, CEq "7"%string)])
           (collection (add_comment a_comment (empty_world jan15)).2
              "comment")) ≤ 100)%nat →
     ∀ stored : doc,
       stored ∈ collection (add_comment a_comment (empty_world jan15)).2
                  "comment" →
       stored !! "post_id"%string = Some "7"%string →
       stringify_id stored ∈ items).
Proof.
  split; [lia|].
  exact (list_comments_of_the_post "7" 100
           (add_comment a_comment (empty_world jan15)).2 ltac:(lia)).
Defined.

(** ** Languages and challenges *)

Section languages.

Lemma streak_loop_raise (fuel : nat) (sset : gset string) (R : date) (s : Z)
    (e : exn) :
  streak_loop fuel sset R s = Raise e → e = OverflowError.
Proof.
  revert R s. induction fuel as [|fuel IH]; intros R s; [done|].
  cbn [streak_loop]. case_bool_decide; [|done].
  destruct (sub_days R 1); [apply IH|]. by intros [= <-].
Qed.

Lemma finish_raise {A} (fuel : nat) (w : World) (items : list doc)
    (response : Z → A) (e : exn) :
  finish fuel w items response = Raise e →
  e = OverflowError ∨ e = ValueError.
Proof.
  unfold finish. destruct (sub_days (reading w 1) 60); [|intros [= <-]; auto].
  destruct (strptime _); [|intros [= <-]; auto].
  destruct (streak_loop _ _ _ _) eqn:E; try done.
  intros [= <-]. left. by eapply streak_loop_raise.
Qed.

Lemma finish_inv {A} (fuel : nat) (w : World) (items : list doc)
    (response : Z → A) (r : A) :
  finish fuel w items response = Ok r →
  ∃ streak, r = response streak ∧
            ∀ B (response' : Z → B),
              finish fuel w items response' = Ok (response' streak).
Proof.
  unfold finish. destruct (sub_days (reading w 1) 60); [|done].
  destruct (strptime _); [|done].
  destruct (streak_loop _ _ _ _) as [streak| |]; try done.
  intros [= <-]. by exists streak.
Qed.

Lemma id_inj (l1 l2 s1 s2 : string) :
  l1 ∈ LANGUAGES → l2 ∈ LANGUAGES →
  l1 +:+ "-" +:+ s1 = l2 +:+ "-" +:+ s2 → l1 = l2 ∧ s1 = s2.
Proof.
  intros H1 H2. unfold LANGUAGES in *.
  repeat (apply elem_of_cons in H1 as [->|H1]);
    try (by apply elem_of_nil in H1);
    repeat (apply elem_of_cons in H2 as [->|H2]);
    try (by apply elem_of_nil in H2);
    cbn; intros H; by simplify_eq.
Qed.

End languages.

(** X6.  The languages GET /languages lists, each once, are exactly those
    the other routes accept: GET /challenges answers for them and refuses
    any other with 404; GET /streak, POST /submit and POST /posts refuse
    with 400 "Unsupported language" exactly the others. *)
Theorem listed_languages_are_the_accepted (language : string) (w : World)
    (fuel : nat) (username kind title content author : string)
    (code : option string) :
  ∃ ls,
    get_languages w = (Ok ls, w) ∧
    NoDup ls ∧
    (language ∈ ls ↔ ∃ c, (get_daily_challenge language w).1 = Ok c) ∧
    (language ∉ ls ↔
     (get_daily_challenge language w).1
     = Raise (HTTPException 404 "Language not supported")) ∧
    (language ∉ ls ↔
     (get_streak fuel username language w).1
     = Raise (HTTPException 400 "Unsupported language")) ∧
    (language ∉ ls ↔
     (submit_solution fuel (mkCreateSubmission username language code) w).1
     = Raise (HTTPException 400 "Unsupported language")) ∧
    (language ∉ ls ↔
     (create_post (mkCreatePost language kind title content author) w).1
     = Raise (HTTPException 400 "Unsupported language")).
Proof.
  exists LANGUAGES. split; [done|]. split.
  { unfold LANGUAGES. repeat (apply NoDup_cons; split; [not_in_list|]).
    apply NoDup_nil_2. }
  destruct (decide (language ∈ LANGUAGES)) as [Hl|Hl].
  - rewrite get_daily_challenge_run, get_streak_unfold,
      submit_solution_unfold by done. cbn [fst].
    split_and!; split; try done.
    + by eexists.
    + intros E. by apply finish_raise in E as [?|?].
    + intros E. by apply finish_raise in E as [?|?].
    + unfold create_post; cbn [cp_language cp_kind].
      rewrite bool_decide_eq_true_2 by done. cbn [negb].
      case_bool_decide; cbn [negb]; [|done].
      unfold bind, create_document; cbn [fst]. done.
  - rewrite get_daily_challenge_unsupported, get_streak_unsupported,
      submit_solution_unsupported by done.
    unfold create_post; cbn [cp_language].
    rewrite bool_decide_eq_false_2 by done. cbn [fst negb].
    split_and!; split; try done. by intros [c ?].
Qed.

(** X7.  The id of a challenge tells its language and its day: two
    challenges served with the same id were asked in the same language on
    the same day, and are the same challenge. *)
Theorem challenge_id_unique (l1 l2 : string) (w1 w2 : World)
    (c1 c2 : Challenge) :
  valid_date (reading w1 0) = true → valid_date (reading w2 0) = true →
  (get_daily_challenge l1 w1).1 = Ok c1 →
  (get_daily_challenge l2 w2).1 = Ok c2 →
  ch_id c1 = ch_id c2 →
  l1 = l2 ∧ reading w1 0 = reading w2 0 ∧ c1 = c2.
Proof.
  intros Hv1 Hv2 E1 E2 Hid.
  destruct (decide (l1 ∈ LANGUAGES)) as [H1|H1];
    [|by rewrite get_daily_challenge_unsupported in E1].
  destruct (decide (l2 ∈ LANGUAGES)) as [H2|H2];
    [|by rewrite get_daily_challenge_unsupported in E2].
  rewrite get_daily_challenge_run in E1, E2 by done.
  injection E1 as <-. injection E2 as <-. cbn [ch_id generate] in Hid.
  apply id_inj in Hid as [-> Hs]; [|done..].
  apply strftime_inj in Hs; [|done..]. by rewrite Hs.
Qed.

Lemma challenge_id_unique_witness :
  valid_date (reading (empty_world jan15) 0) = true ∧
  valid_date (reading w_two_days 0) = true ∧
  (get_daily_challenge "java" (empty_world jan15)).1
  = Ok (generate "java" "2024-01-15") ∧
  (get_daily_challenge "java" w_two_days).1
  = Ok (generate "java" "2024-01-15") ∧
  ch_id (generate "java" "2024-01-15") = ch_id (generate "java" "2024-01-15") ∧
  "java"%string = "java"%string ∧
  reading (empty_world jan15) 0 = reading w_two_days 0 ∧
  generate "java" "2024-01-15" = generate "java" "2024-01-15".
Proof.
  split_and!; [reflexivity..|idtac|idtac|idtac];
    apply (challenge_id_unique "java" "java" (empty_world jan15) w_two_days
             (generate "java" "2024-01-15") (generate "java" "2024-01-15")
             eq_refl eq_refl eq_refl eq_refl eq_refl).
Defined.

(** ** More on the streak *)

Section more_streak.

Lemma get_streak_depends (fuel : nat) (u l : string) (w1 w2 : World) :
  reading w1 0 = reading w2 0 → reading w1 1 = reading w2 1 →
  window_of w1 u l = window_of w2 u l →
  (get_streak fuel u l w1).1 = (get_streak fuel u l w2).1.
Proof.
  intros E0 E1 Ew. destruct (decide (l ∈ LANGUAGES)) as [Hl|Hl].
  - rewrite !get_streak_unfold by done. cbn [fst]. rewrite Ew.
    by apply finish_ext.
  - by rewrite !get_streak_unsupported.
Qed.

Lemma window_of_grows (w : World) (u l : string) (record it : doc) :
  it ∈ window_of w u l → it ∈ window_of (with_submission record w) u l.
Proof.
  unfold window_of. destruct (sub_days (reading w 1) 60) as [start|] eqn:E.
  - rewrite (in_window_with_submission _ _ _ _ _ E).
    unfold in_window. rewrite E, List.filter_app.
    rewrite !elem_of_take. intros (i & Hi & Hlt). exists i.
    split; [|done]. by apply lookup_app_l_Some.
  - unfold in_window at 1. rewrite E. by intros ?%elem_of_nil.
Qed.

Lemma window_of_other (w : World) (u l : string) (record : doc) :
  record !! "username"%string ≠ Some u ∨
  record !! "language"%string ≠ Some l →
  window_of (with_submission record w) u l = window_of w u l.
Proof.
  intros Hother. unfold window_of. f_equal.
  destruct (sub_days (reading w 1) 60) as [start|] eqn:E.
  - rewrite (in_window_with_submission _ _ _ _ _ E).
    unfold in_window. rewrite E, List.filter_app. cbn [List.filter].
    destruct (matches _ record) eqn:Hm; [|by rewrite app_nil_r].
    apply matches_window in Hm as (? & ? & _). by destruct Hother.
  - unfold in_window.
    change (reading (with_submission record w) 1) with (reading w 1).
    by rewrite E.
Qed.

Lemma window_of_same_submissions (w1 w2 : World) (u l : string) :
  reading w1 1 = reading w2 1 →
  collection w1 "submission" = collection w2 "submission" →
  window_of w1 u l = window_of w2 u l.
Proof. intros E Ec. unfold window_of, in_window. by rewrite E, Ec. Qed.

(** The streak grows with the set of dates. *)
Lemma streak_of_mono (items items' : list doc) (today : date) (k k' : nat)
    (fuel : nat) :
  clock_ok today = true →
  (List.length items ≤ 1000)%nat → (List.length items' ≤ 1000)%nat →
  (1000 < fuel)%nat →
  (∀ s, s ∈ days_of items → s ∈ days_of items') →
  streak_of fuel items today = Ok (Z.of_nat k) →
  streak_of fuel items' today = Ok (Z.of_nat k') →
  (k ≤ k')%nat.
Proof.
  intros Hok Hlen Hlen' Hfuel Hsub Hk Hk'.
  destruct (streak_of_total items today Hok Hlen)
    as (n & d & _ & _ & _ & Hbefore & Hrun).
  destruct (streak_of_total items' today Hok Hlen')
    as (n' & d' & _ & Hd' & Hout' & _ & Hrun').
  pose proof (days_of_length items). pose proof (days_of_length items').
  rewrite Hrun in Hk by lia. rewrite Hrun' in Hk' by lia.
  assert (n = k) as -> by (injection Hk; lia).
  assert (n' = k') as -> by (injection Hk'; lia).
  destruct (decide (k ≤ k')%nat) as [|Hgt]; [done|].
  destruct (Hbefore k') as (d'' & Hd'' & Hin); [lia|].
  rewrite Hd' in Hd''. injection Hd'' as <-. destruct Hout'. by apply Hsub.
Qed.

(** The records of a window are dated on or after its first day. *)
Lemma window_of_dates (w : World) (u l : string) (start : date) (s : string) :
  sub_days (reading w 1) 60 = Some start →
  s ∈ days_of (window_of w u l) → str_le (strftime start) s = true.
Proof.
  intros E (it & Hit & Hs)%days_of_elem_of.
  rewrite (window_of_items _ _ _ _ E) in Hit.
  apply window_items_matches in Hit as [_ Hm].
  apply matches_window in Hm as (_ & _ & s' & Hs' & Hle). congruence.
Qed.

(** A run of days inside a window that starts 60 days before today is at
    most 61 days long. *)
Lemma run_in_window (today start : date) (k : nat) (days : list string) :
  valid_date today = true → sub_days today 60 = Some start →
  (∀ s, s ∈ days → str_le (strftime start) s = true) →
  (∀ i, (i < k)%nat → ∃ d, sub_days today i = Some d ∧ strftime d ∈ days) →
  (k ≤ 61)%nat.
Proof.
  intros Hv Hstart Hdays Hrun.
  destruct (decide (k ≤ 61)%nat) as [|Hgt]; [done|].
  destruct (Hrun 61%nat) as (d & Hd & Hin); [lia|].
  apply Hdays in Hin.
  destruct (sub_days_rank _ _ _ Hv Hstart) as [Hvs _].
  destruct (sub_days_rank _ _ _ Hv Hd) as [Hvd _].
  apply strftime_le in Hin; [|done..]. unfold date_le in Hin.
  rewrite date_compare_rank in Hin by done.
  change 61%nat with (60 + 1)%nat in Hd.
  rewrite sub_days_add, Hstart in Hd. cbn [mbind option_bind] in Hd.
  apply sub_days_rank in Hd as [_ Hr]; [|done].
  destruct Hin. apply Z.compare_gt_iff. lia.
Qed.

(** The record of today is among the returned ones when the window does
    not start after today and holds fewer than 1000 records. *)
Lemma today_is_returned (w : World) (u l : string) (start : date) :
  valid_date (reading w 0) = true →
  sub_days (reading w 1) 60 = Some start → valid_date start = true →
  date_le start (reading w 0) →
  (List.length (in_window w u l) < 1000)%nat →
  window_of (appended w u l) u l
  = in_window w u l ++ [submission u l (strftime (reading w 0))].
Proof.
  intros Hv Hstart Hvs Hle Hlen. unfold window_of, appended.
  rewrite (in_window_with_submission _ _ _ _ _ Hstart).
  rewrite List.filter_app. cbn [List.filter].
  rewrite today_in_window by done.
  unfold in_window in *. rewrite Hstart in *.
  by rewrite take_ge by (rewrite length_app; simpl; lia).
Qed.

End more_streak.

(** X8.  The streak GET /streak returns is the length of the run of
    consecutive days that ends today among the days it returns: each of the
    [streak] days up to today is listed, and the day before them is not. *)
Theorem streak_is_the_run_ending_today (w : World) (fuel : nat)
    (username language : string) :
  language ∈ LANGUAGES →
  clock_ok (reading w 0) = true → clock_ok (reading w 1) = true →
  (1000 < fuel)%nat →
  ∃ (k : nat) (days : list string),
    get_streak fuel username language w =
    (Ok {| sr_streak := Z.of_nat k; sr_days := days |}, tick 2 w) ∧
    (∀ i, (i < k)%nat →
          ∃ d, sub_days (reading w 0) i = Some d ∧ strftime d ∈ days) ∧
    (∃ d, sub_days (reading w 0) k = Some d ∧ strftime d ∉ days).
Proof.
  intros Hl H0 H1 Hfuel.
  destruct (streak_of_total (window_of w username language) (reading w 0))
    as (k & d & Hk & Hd & Hout & Hbefore & Hrun);
    [done|apply window_of_length|].
  pose proof (days_of_length (window_of w username language)).
  pose proof (window_of_length w username language).
  exists k, (days_of (window_of w username language)). split_and!.
  - apply get_streak_ok; [done..|]. apply Hrun. lia.
  - done.
  - by exists d.
Qed.

Lemma streak_is_the_run_ending_today_witness :
  "python"%string ∈ LANGUAGES ∧
  clock_ok (reading w_two_days 0) = true ∧
  clock_ok (reading w_two_days 1) = true ∧
  (1000 < 1001)%nat ∧
  ∃ (k : nat) (days : list string),
    get_streak 1001 "ann" "python" w_two_days =
    (Ok {| sr_streak := Z.of_nat k; sr_days := days |}, tick 2 w_two_days) ∧
    (∀ i, (i < k)%nat →
          ∃ d, sub_days (reading w_two_days 0) i = Some d ∧
               strftime d ∈ days) ∧
    (∃ d, sub_days (reading w_two_days 0) k = Some d ∧ strftime d ∉ days).
Proof.
  assert ("python"%string ∈ LANGUAGES) as Hl by in_list.
  split_and!; [exact Hl|reflexivity|reflexivity|lia|].
  exact (streak_is_the_run_ending_today w_two_days 1001 "ann" "python" Hl
           eq_refl eq_refl ltac:(lia)).
Defined.

(** X9.  When both clock readings show the same day, no streak exceeds 61:
    the window holds today and the 60 days before it. *)
Theorem streak_at_most_61 (w : World) (fuel : nat)
    (username language : string) (code : option string) :
  language ∈ LANGUAGES →
  clock_ok (reading w 0) = true → reading w 1 = reading w 0 →
  (1000 < fuel)%nat →
  (∃ r, get_streak fuel username language w = (Ok r, tick 2 w) ∧
        0 ≤ sr_streak r ≤ 61) ∧
  (∃ r, submit_solution fuel (mkCreateSubmission username language code) w
        = (Ok r, tick 2 (appended w username language)) ∧
        0 ≤ sb_streak r ≤ 61).
Proof.
  intros Hl H0 Hsame Hfuel.
  assert (clock_ok (reading w 1) = true) as H1 by by rewrite Hsame.
  destruct (clock_ok_sub_days _ 60 H1) as (start & Hstart & _); [lia|].
  pose proof H0 as [Hv _]%clock_ok_spec.
  assert (∀ w', reading w' 1 = reading w 1 →
            ∃ k : nat,
              (k ≤ 61)%nat ∧
              streak_of fuel (window_of w' username language) (reading w 0)
              = Ok (Z.of_nat k)) as Hbound.
  { intros w' E'.
    destruct (streak_of_total (window_of w' username language) (reading w 0))
      as (k & d & Hk & _ & _ & Hbefore & Hrun);
      [done|apply window_of_length|].
    pose proof (days_of_length (window_of w' username language)).
    pose proof (window_of_length w' username language).
    exists k. split; [|apply Hrun; lia].
    apply (run_in_window (reading w 0) start k
             (days_of (window_of w' username language)));
      [done|by rewrite <- Hsame| |done].
    intros s. apply window_of_dates. by rewrite E'. }
  split.
  - destruct (Hbound w eq_refl) as (k & Hk & Hrun).
    eexists. split; [by apply get_streak_ok|]. cbn [sr_streak]. lia.
  - destruct (Hbound (appended w username language) eq_refl)
      as (k & Hk & Hrun).
    eexists. split; [by apply submit_solution_ok|]. cbn [sb_streak]. lia.
Qed.

Lemma streak_at_most_61_witness :
  "python"%string ∈ LANGUAGES ∧
  clock_ok (reading w_two_days 0) = true ∧
  reading w_two_days 1 = reading w_two_days 0 ∧
  (1000 < 1001)%nat ∧
  (∃ r, get_streak 1001 "ann" "python" w_two_days
        = (Ok r, tick 2 w_two_days) ∧
        0 ≤ sr_streak r ≤ 61) ∧
  (∃ r, submit_solution 1001 (mkCreateSubmission "ann" "python" None)
          w_two_days
        = (Ok r, tick 2 (appended w_two_days "ann" "python")) ∧
        0 ≤ sb_streak r ≤ 61).
Proof.
  assert ("python"%string ∈ LANGUAGES) as Hl by in_list.
  split_and!; [exact Hl|reflexivity|reflexivity|lia|..];
    apply (streak_at_most_61 w_two_days 1001 "ann" "python" None Hl
             eq_refl eq_refl ltac:(lia)).
Defined.

(** X10.  One more stored submission, whatever it holds, never lowers a
    streak and never removes a day from the days GET /streak returns. *)
Theorem another_submission_never_lowers (w : World) (fuel : nat)
    (username language : string) (record : doc) :
  language ∈ LANGUAGES →
  clock_ok (reading w 0) = true → clock_ok (reading w 1) = true →
  (1000 < fuel)%nat →
  ∃ r r',
    get_streak fuel username language w = (Ok r, tick 2 w) ∧
    get_streak fuel username language (with_submission record w)
    = (Ok r', tick 2 (with_submission record w)) ∧
    sr_streak r ≤ sr_streak r' ∧
    ∀ s, s ∈ sr_days r → s ∈ sr_days r'.
Proof.
  intros Hl H0 H1 Hfuel.
  set (w' := with_submission record w).
  destruct (streak_of_total (window_of w username language) (reading w 0))
    as (k & d & Hk & _ & _ & _ & Hrun); [done|apply window_of_length|].
  destruct (streak_of_total (window_of w' username language) (reading w 0))
    as (k' & d' & Hk' & _ & _ & _ & Hrun'); [done|apply window_of_length|].
  pose proof (days_of_length (window_of w username language)).
  pose proof (window_of_length w username language).
  pose proof (days_of_length (window_of w' username language)).
  pose proof (window_of_length w' username language).
  assert (∀ s, s ∈ days_of (window_of w username language) →
               s ∈ days_of (window_of w' username language)) as Hsub.
  { intros s (it & Hit & Hs)%days_of_elem_of. apply days_of_elem_of.
    exists it. split; [by apply window_of_grows|done]. }
  eexists _, _. split; [apply get_streak_ok; [done..|apply Hrun; lia]|].
  split; [apply (get_streak_ok fuel username language w');
          [done..|apply Hrun'; lia]|].
  cbn [sr_streak sr_days]. split; [|done].
  apply inj_le.
  apply (streak_of_mono (window_of w username language)
           (window_of w' username language) (reading w 0) k k' fuel);
    [done|apply window_of_length|apply window_of_length|done|done
    |apply Hrun; lia|apply Hrun'; lia].
Qed.

Lemma another_submission_never_lowers_witness :
  "python"%string ∈ LANGUAGES ∧
  clock_ok (reading w_earlier 0) = true ∧
  clock_ok (reading w_earlier 1) = true ∧
  (1000 < 1001)%nat ∧
  ∃ r r',
    get_streak 1001 "ann" "python" w_earlier = (Ok r, tick 2 w_earlier) ∧
    get_streak 1001 "ann" "python" (with_submission dup_of_today w_earlier)
    = (Ok r', tick 2 (with_submission dup_of_today w_earlier)) ∧
    sr_streak r ≤ sr_streak r' ∧
    ∀ s, s ∈ sr_days r → s ∈ sr_days r'.
Proof.
  assert ("python"%string ∈ LANGUAGES) as Hl by in_list.
  split_and!; [exact Hl|reflexivity|reflexivity|lia|].
  exact (another_submission_never_lowers w_earlier 1001 "ann" "python"
           dup_of_today Hl eq_refl eq_refl ltac:(lia)).
Defined.

Example streak_grows_from_0_to_3 :
  (get_streak 1001 "ann" "python" w_earlier).1
  = Ok {| sr_streak := 0; sr_days := ["2024-01-13"; "2024-01-14"]%string |} ∧
  (get_streak 1001 "ann" "python" (with_submission dup_of_today w_earlier)).1
  = Ok {| sr_streak := 3;
          sr_days := ["2024-01-13"; "2024-01-14"; "2024-01-15"]%string |}.
Proof. split; vm_compute; reflexivity. Qed.

(** X11.  Streaks are kept per user and language: a stored submission of
    another user, or in another language, changes nothing in what
    GET /streak answers. *)
Theorem other_submissions_do_not_matter (w : World) (fuel : nat)
    (username language : string) (record : doc) :
  record !! "username"%string ≠ Some username ∨
  record !! "language"%string ≠ Some language →
  (get_streak fuel username language (with_submission record w)).1
  = (get_streak fuel username language w).1.
Proof.
  intros Hother. apply get_streak_depends; [done..|].
  by apply window_of_other.
Qed.

Lemma other_submissions_do_not_matter_witness :
  (submission "bob" "python" "2024-01-13" !! "username"%string
   ≠ Some "ann"%string ∨
   submission "bob" "python" "2024-01-13" !! "language"%string
   ≠ Some "python"%string) ∧
  (get_streak 1001 "ann" "python"
     (with_submission (submission "bob" "python" "2024-01-13") w_two_days)).1
  = (get_streak 1001 "ann" "python" w_two_days).1.
Proof.
  assert (submission "bob" "python" "2024-01-13" !! "username"%string
          ≠ Some "ann"%string ∨
          submission "bob" "python" "2024-01-13" !! "language"%string
          ≠ Some "python"%string) as H
    by (left; intros E; vm_compute in E; discriminate E).
  split; [exact H|].
  exact (other_submissions_do_not_matter w_two_days 1001 "ann" "python"
           (submission "bob" "python" "2024-01-13") H).
Defined.

(** X12.  Posts and comments do not touch streaks or challenges:
    GET /streak and GET /challenges answer after a POST /posts or a
    POST /comments, accepted or refused, what they answered before. *)
Theorem posts_and_comments_do_not_matter (w : World) (fuel : nat)
    (username language : string) (p : CreatePost) (c : CreateComment) :
  (get_streak fuel username language (create_post p w).2).1
  = (get_streak fuel username language w).1 ∧
  (get_streak fuel username language (add_comment c w).2).1
  = (get_streak fuel username language w).1 ∧
  (get_daily_challenge language (create_post p w).2).1
  = (get_daily_challenge language w).1 ∧
  (get_daily_challenge language (add_comment c w).2).1
  = (get_daily_challenge language w).1.
Proof.
  assert (∀ name record,
            name ≠ "submission"%string →
            (get_streak fuel username language
               (create_document name record w).2).1
            = (get_streak fuel username language w).1) as Hs.
  { intros name record Hne. apply get_streak_depends; [done..|].
    apply window_of_same_submissions; [done|].
    by rewrite collection_create_document, decide_False. }
  assert (∀ w', clock w' = clock w → ticks w' = ticks w →
                (get_daily_challenge language w').1
                = (get_daily_challenge language w).1) as Hc.
  { intros w' Ec Et. destruct (decide (language ∈ LANGUAGES)).
    - rewrite !get_daily_challenge_run by done. cbn [fst].
      unfold reading. by rewrite Ec, Et.
    - by rewrite !get_daily_challenge_unsupported. }
  assert ((create_post p w).2 = w ∨
          (create_post p w).2
          = (create_document "communitypost" (model_dump p) w).2) as [->| ->].
  { unfold create_post. repeat (case_bool_decide; cbn [negb]); auto. }
  - split_and!; [done|by apply Hs|done|by apply Hc].
  - split_and!; [by apply Hs|by apply Hs|by apply Hc|by apply Hc].
Qed.

(** X13.  What POST /submit answers is what GET /streak answers right
    after it, while the clock shows the same days: the streak returned to
    the user who submits is the streak anyone then reads. *)
Theorem streak_after_submit_agrees (w w' : World) (fuel : nat)
    (username language : string) (code : option string)
    (r : SubmitResponse) :
  reading w 2 = reading w 0 → reading w 3 = reading w 1 →
  submit_solution fuel (mkCreateSubmission username language code) w
  = (Ok r, w') →
  ∃ days,
    (get_streak fuel username language w').1
    = Ok {| sr_streak := sb_streak r; sr_days := days |}.
Proof.
  intros E2 E3 Hrun.
  destruct (decide (language ∈ LANGUAGES)) as [Hl|Hl];
    [|by rewrite submit_solution_unsupported in Hrun].
  rewrite submit_solution_unfold in Hrun by done.
  cbn [cs_username cs_language] in Hrun.
  injection Hrun as Hfin <-.
  apply finish_inv in Hfin as (streak & -> & Hany). cbn [sb_streak].
  set (w1 := appended w username language) in *.
  rewrite get_streak_unfold by done. cbn [fst].
  assert (window_of (tick 2 w1) username language
          = window_of w1 username language) as ->.
  { apply window_of_same_submissions; [exact E3|done]. }
  exists (days_of (window_of w1 username language)).
  rewrite (finish_ext fuel (tick 2 w1) w _ (window_of w1 username language));
    [|exact E2|exact E3|done].
  exact (Hany _ (λ streak, {| sr_streak := streak;
                              sr_days := days_of
                                           (window_of w1 username language) |})).
Qed.

Lemma streak_after_submit_agrees_witness :
  reading w_two_days 2 = reading w_two_days 0 ∧
  reading w_two_days 3 = reading w_two_days 1 ∧
  submit_solution 1001 (mkCreateSubmission "ann" "python" None) w_two_days
  = (Ok {| sb_ok := true; sb_date := "2024-01-15"; sb_streak := 2 |},
     tick 2 (appended w_two_days "ann" "python")) ∧
  ∃ days,
    (get_streak 1001 "ann" "python"
       (tick 2 (appended w_two_days "ann" "python"))).1
    = Ok {| sr_streak := 2; sr_days := days |}.
Proof.
  assert (submit_solution 1001 (mkCreateSubmission "ann" "python" None)
            w_two_days
          = (Ok {| sb_ok := true; sb_date := "2024-01-15"; sb_streak := 2 |},
             tick 2 (appended w_two_days "ann" "python"))) as Hrun.
  { rewrite submit_solution_unfold by in_list. reflexivity. }
  split_and!; [reflexivity|reflexivity|exact Hrun|].
  exact (streak_after_submit_agrees w_two_days _ 1001 "ann" "python" None _
           eq_refl eq_refl Hrun).
Defined.

(** X14.  The streak routes never raise [KeyError] or [IndexError]: the
    query only returns records that have a date.  What they can raise is
    the 400 of an unsupported language and, on a clock outside the calendar,
    [OverflowError] or [ValueError]; GET /challenges can only raise its
    404. *)
Theorem routes_raise_only (w : World) (fuel : nat)
    (username language : string) (code : option string) (e : exn) :
  ((get_streak fuel username language w).1 = Raise e →
   e = HTTPException 400 "Unsupported language" ∨
   e = OverflowError ∨ e = ValueError) ∧
  ((submit_solution fuel (mkCreateSubmission username language code) w).1
   = Raise e →
   e = HTTPException 400 "Unsupported language" ∨
   e = OverflowError ∨ e = ValueError) ∧
  ((get_daily_challenge language w).1 = Raise e →
   e = HTTPException 404 "Language not supported").
Proof.
  destruct (decide (language ∈ LANGUAGES)) as [Hl|Hl].
  - rewrite get_streak_unfold, submit_solution_unfold,
      get_daily_challenge_run by done. cbn [fst].
    split_and!; [| |done]; intros [?|?]%finish_raise; auto.
  - rewrite get_streak_unsupported, submit_solution_unsupported,
      get_daily_challenge_unsupported by done. cbn [fst].
    split_and!; intros [= <-]; auto.
Qed.

Lemma routes_raise_only_witness :
  (get_streak 5 "ann" "klingon" w_two_days).1
  = Raise (HTTPException 400 "Unsupported language") ∧
  (HTTPException 400 "Unsupported language"
   = HTTPException 400 "Unsupported language" ∨
   HTTPException 400 "Unsupported language" = OverflowError ∨
   HTTPException 400 "Unsupported language" = ValueError).
Proof.
  split; [reflexivity|].
  exact (proj1 (routes_raise_only w_two_days 5 "ann" "klingon" None
                  (HTTPException 400 "Unsupported language")) eq_refl).
Defined.

(** X15.  A gap restarts the streak: when the user has no submission dated
    yesterday, POST /submit answers with a streak of exactly 1 (both clock
    readings on the same day, fewer than 1000 records in the window). *)
Theorem submit_after_gap_restarts (w : World) (fuel : nat)
    (username language : string) (code : option string) (yesterday : date) :
  language ∈ LANGUAGES →
  clock_ok (reading w 0) = true → reading w 1 = reading w 0 →
  (List.length (in_window w username language) < 1000)%nat →
  (1000 < fuel)%nat →
  prev_day (reading w 0) = Some yesterday →
  (∀ it : doc, it ∈ collection w "submission" →
     it !! "username"%string = Some username →
     it !! "language"%string = Some language →
     it !! "date"%string ≠ Some (strftime yesterday)) →
  submit_solution fuel (mkCreateSubmission username language code) w =
  (Ok {| sb_ok := true; sb_date := strftime (reading w 0); sb_streak := 1 |},
   tick 2 (appended w username language)).
Proof.
  intros Hl H0 Hsame Hlen Hfuel Hy Hnone.
  assert (clock_ok (reading w 1) = true) as H1 by by rewrite Hsame.
  destruct (clock_ok_sub_days _ 60 H1) as (start & Hstart & Hvs); [lia|].
  pose proof H0 as [Hv _]%clock_ok_spec.
  pose proof (same_day_window w start Hv Hsame Hstart) as Hle.
  pose proof (today_is_returned w username language start Hv Hstart Hvs Hle
                Hlen) as Hwin.
  set (rec := submission username language (strftime (reading w 0))) in *.
  destruct (prev_day_valid _ _ Hv Hy) as (Hvy & _ & Hry).
  destruct (streak_of_total
              (window_of (appended w username language) username language)
              (reading w 0))
    as (k & d & Hk & Hd & Hout & Hbefore & Hrun);
    [done|apply window_of_length|].
  pose proof (days_of_length
                (window_of (appended w username language) username language)).
  pose proof (window_of_length (appended w username language)
                username language).
  apply submit_solution_ok; [done..|]. rewrite Hrun by lia.
  assert (k = 1%nat) as ->; [|done].
  destruct k as [|[|k]]; [|done|].
  - injection Hd as <-. destruct Hout. apply days_of_elem_of.
    exists rec. split; [|apply submission_fields].
    rewrite Hwin. apply elem_of_app. right. by apply list_elem_of_singleton.
  - destruct (Hbefore 1%nat) as (d1 & Hd1 & Hin); [lia|].
    rewrite sub_days_1, Hy in Hd1. injection Hd1 as <-.
    apply days_of_elem_of in Hin as (it & Hit & Hdate).
    rewrite Hwin in Hit. apply elem_of_app in Hit as [Hit|Hit].
    + unfold in_window in Hit. rewrite Hstart in Hit.
      apply list_elem_of_In, List.filter_In in Hit as [Hit Hm].
      apply matches_window in Hm as (Hu & Hlang & _).
      by destruct (Hnone it (proj2 (list_elem_of_In _ _) Hit) Hu Hlang).
    + apply list_elem_of_singleton in Hit as ->.
      destruct (submission_fields username language (strftime (reading w 0)))
        as (_ & _ & Hdt).
      unfold rec in Hdate. rewrite Hdt in Hdate.
      apply (inj Some) in Hdate.
      apply strftime_inj in Hdate; [|done..]. rewrite Hdate in Hry. lia.
Qed.

Lemma submit_after_gap_restarts_witness :
  "python"%string ∈ LANGUAGES ∧
  clock_ok (reading w_gap 0) = true ∧
  reading w_gap 1 = reading w_gap 0 ∧
  (List.length (in_window w_gap "ann" "python") < 1000)%nat ∧
  (1000 < 1001)%nat ∧
  prev_day (reading w_gap 0) = Some (mkdate 2024 1 14) ∧
  (∀ it : doc, it ∈ collection w_gap "submission" →
     it !! "username"%string = Some "ann"%string →
     it !! "language"%string = Some "python"%string →
     it !! "date"%string ≠ Some (strftime (mkdate 2024 1 14))) ∧
  submit_solution 1001 (mkCreateSubmission "ann" "python" None) w_gap =
  (Ok {| sb_ok := true; sb_date := strftime (reading w_gap 0);
         sb_streak := 1 |},
   tick 2 (appended w_gap "ann" "python")).
Proof.
  assert ("python"%string ∈ LANGUAGES) as Hl by in_list.
  assert (List.length (in_window w_gap "ann" "python") < 1000)%nat as Hlen
    by (vm_compute; lia).
  assert (∀ it : doc, it ∈ collection w_gap "submission" →
            it !! "username"%string = Some "ann"%string →
            it !! "language"%string = Some "python"%string →
            it !! "date"%string ≠ Some (strftime (mkdate 2024 1 14)))
    as Hnone.
  { intros it Hit Hu _. unfold w_gap in Hit.
    rewrite collection_world_on in Hit.
    repeat (apply elem_of_cons in Hit as [->|Hit];
            [first [by vm_compute | by vm_compute in Hu]|]).
    by apply elem_of_nil in Hit. }
  split_and!;
    [exact Hl|reflexivity|reflexivity|exact Hlen|lia|reflexivity|exact Hnone|].
  exact (submit_after_gap_restarts w_gap 1001 "ann" "python" None
           (mkdate 2024 1 14) Hl eq_refl eq_refl Hlen ltac:(lia) eq_refl
           Hnone).
Defined.

(** ** The format of [today_str] *)



(** ** The application and its store *)

Section application.

Lemma bind_ret_snd {A B} (m : M A) (f : A → B) (w : World) :
  (bind m (λ x, ret (f x)) w).2 = (m w).2.
Proof. unfold bind, ret. by destruct (m w) as [[?|?|] ?]. Qed.

Lemma collection_tick (n : nat) (w : World) (name : string) :
  collection (tick n w) name = collection w name.
Proof. done. Qed.

(** What a request leaves behind: nothing, or one record appended, which
    is an accepted post, a comment, or a submission of today in a supported
    language. *)
Lemma after_cases (fuel : nat) (w : World) (req : request) :
  clock (after fuel w req) = clock w ∧
  ((∀ name, collection (after fuel w req) name = collection w name) ∨
   (∃ p, req = PostPosts p ∧ cp_language p ∈ LANGUAGES ∧
         cp_kind p ∈ ["project"; "question"]%string ∧
         ∀ name,
           collection (after fuel w req) name
           = collection (create_document "communitypost" (model_dump p) w).2
               name) ∨
   (∃ c, req = PostComments c ∧
         ∀ name,
           collection (after fuel w req) name
           = collection
               (create_document "comment" (model_dump_comment c) w).2 name) ∨
   (∃ u l, l ∈ LANGUAGES ∧ is_get req = false ∧
           ∀ name,
             collection (after fuel w req) name
             = collection
                 (create_document "submission"
                    (submission u l (strftime (reading w 0))) w).2 name)).
Proof.
  unfold after.
  destruct req as [| |language|p|language kind limit|c|post_id limit
                  |payload|username language|db getenv]; cbn [handle];
    rewrite ?bind_ret_snd.
  - split; [done|by left].
  - split; [done|by left].
  - destruct (decide (language ∈ LANGUAGES)) as [Hl|Hl].
    + rewrite get_daily_challenge_run by done. split; [done|by left].
    + rewrite get_daily_challenge_unsupported by done. split; [done|by left].
  - destruct (decide (cp_language p ∈ LANGUAGES)) as [Hl|Hl];
      [destruct (decide (cp_kind p ∈ ["project"; "question"]%string))
         as [Hk|Hk]|].
    + rewrite create_post_run by done. split; [done|].
      right. left. by exists p.
    + unfold create_post.
      rewrite bool_decide_eq_true_2, bool_decide_eq_false_2 by done.
      split; [done|by left].
    + unfold create_post. rewrite bool_decide_eq_false_2 by done.
      split; [done|by left].
  - split; [done|by left].
  - split; [done|]. right. right. left. by exists c.
  - split; [done|by left].
  - destruct (decide (cs_language payload ∈ LANGUAGES)) as [Hl|Hl].
    + rewrite submit_solution_unfold by done. cbn [snd]. split; [done|].
      right. right. right. exists (cs_username payload), (cs_language payload).
      by split_and!.
    + rewrite submit_solution_unsupported by done. split; [done|by left].
  - destruct (decide (language ∈ LANGUAGES)) as [Hl|Hl].
    + rewrite get_streak_unfold by done. split; [done|by left].
    + rewrite get_streak_unsupported by done. split; [done|by left].
  - split; [done|by left].
Qed.

Lemma conforms_ext (w w' : World) :
  (∀ name, collection w' name = collection w name) →
  conforms w → conforms w'.
Proof. intros E H name model Hin. rewrite E. by apply H. Qed.


Lemma conforms_create (w : World) (name : string) (record : doc) :
  (∀ model, (name, model) ∈ schemas → model record = true) →
  conforms w → conforms (create_document name record w).2.
Proof.
  intros Hrec H name' model Hin. rewrite collection_create_document.
  destruct (decide (name = name')) as [<-|Hne]; [|by apply H].
  apply Forall_app. split; [by apply H|]. constructor; [|done].
  by apply Hrec.
Qed.

Lemma schema_of (name : string) (model : doc → bool) :
  (name, model) ∈ schemas →
  (name, model) = ("user"%string, User) ∨
  (name, model) = ("communitypost"%string, CommunityPost) ∨
  (name, model) = ("comment"%string, Comment) ∨
  (name, model) = ("challenge"%string, Challenge_schema) ∨
  (name, model) = ("submission"%string, Submission).
Proof.
  unfold schemas. intros H.
  repeat (apply elem_of_cons in H as [->|H]; [auto 10|]).
  by apply elem_of_nil in H.
Qed.

Lemma required_Some (d : doc) (field v : string) :
  d !! field = Some v → required d field = true.
Proof. intros E. unfold required. by rewrite E, bool_decide_eq_true_2. Qed.

Lemma after_conforms (fuel : nat) (w : World) (req : request) :
  conforms w → conforms (after fuel w req).
Proof.
  intros H.
  destruct (after_cases fuel w req)
    as [_ [E|[(p & _ & Hl & Hk & E)|[(c & _ & E)|(u & l & Hl & _ & E)]]]].
  - by apply (conforms_ext w).
  - apply (conforms_ext _ _ E), conforms_create; [|done].
    destruct (model_dump_fields p) as (Fl & Fk & Ft & Fc & Fa).
    intros model [?|[?|[?|[?|?]]]]%schema_of; simplify_eq.
    unfold CommunityPost. rewrite Fk, bool_decide_eq_true_2 by done.
    by rewrite (required_Some _ _ _ Fl), (required_Some _ _ _ Ft),
      (required_Some _ _ _ Fc), (required_Some _ _ _ Fa).
  - apply (conforms_ext _ _ E), conforms_create; [|done].
    destruct (model_dump_comment_fields c) as (Fp & Fa & Fc).
    intros model [?|[?|[?|[?|?]]]]%schema_of; simplify_eq.
    unfold Comment.
    by rewrite (required_Some _ _ _ Fp), (required_Some _ _ _ Fa),
      (required_Some _ _ _ Fc).
  - apply (conforms_ext _ _ E), conforms_create; [|done].
    destruct (submission_fields u l (strftime (reading w 0)))
      as (Fu & Fl & Fd).
    intros model [?|[?|[?|[?|?]]]]%schema_of; simplify_eq.
    unfold Submission.
    by rewrite (required_Some _ _ _ Fu), (required_Some _ _ _ Fl),
      (required_Some _ _ _ Fd).
Qed.


Lemma serve_snoc (fuel : nat) (reqs : list request) (req : request)
    (w : World) :
  serve fuel (reqs ++ [req]) w = after fuel (serve fuel reqs w) req.
Proof. unfold serve. by rewrite foldl_app. Qed.


End application.

(** X17.  Whatever requests are served, the store keeps to [schemas.py]:
    if every stored record holds for the model of its collection, so does
    every record after any sequence of requests.  In particular every post
    the service stores has one of the two kinds. *)
Theorem store_keeps_to_the_schemas (fuel : nat) (reqs : list request)
    (w : World) :
  conforms w → conforms (serve fuel reqs w).
Proof.
  intros H. induction reqs as [|req reqs IH] using rev_ind; [done|].
  rewrite serve_snoc. by apply after_conforms.
Qed.

Lemma store_keeps_to_the_schemas_witness :
  conforms (empty_world jan15) ∧
  conforms (serve 1001
              [PostPosts a_post; PostComments a_comment;
               PostSubmit (mkCreateSubmission "ann" "go" None);
               PostPosts (mkCreatePost "go" "poll" "t" "c" "ann")]
              (empty_world jan15)).
Proof.
  assert (conforms (empty_world jan15)) as H.
  { intros name model _. unfold collection, empty_world; cbn [store].
    rewrite lookup_empty. constructor. }
  split; [exact H|].
  exact (store_keeps_to_the_schemas 1001 _ (empty_world jan15) H).
Defined.



(** X19.  A GET never writes: after any request made with GET, answered
    or refused, every collection is as it was.  And no request at all
    touches a collection other than "communitypost", "comment" and
    "submission". *)
Theorem get_requests_never_write (fuel : nat) (req : request) (w : World) :
  (is_get req = true →
   ∀ name, collection (after fuel w req) name = collection w name) ∧
  (∀ name,
     name ∉ ["communitypost"; "comment"; "submission"]%string →
     collection (after fuel w req) name = collection w name).
Proof.
  destruct (after_cases fuel w req)
    as [_ [E|[(p & -> & _ & _ & E)|[(c & -> & E)|(u & l & _ & Hg & E)]]]].
  - by split.
  - split; [done|]. intros name Hne. rewrite E, collection_create_document.
    rewrite decide_False; [done|]. intros <-. apply Hne. repeat constructor.
  - split; [done|]. intros name Hne. rewrite E, collection_create_document.
    rewrite decide_False; [done|]. intros <-. apply Hne. repeat constructor.
  - split; [by rewrite Hg|].
    intros name Hne. rewrite E, collection_create_document.
    rewrite decide_False; [done|]. intros <-. apply Hne. repeat constructor.
Qed.

Lemma get_requests_never_write_witness :
  is_get (GetStreak "ann" "python") = true ∧
  ∀ name, collection (after 1001 w_two_days (GetStreak "ann" "python")) name
          = collection w_two_days name.
Proof.
  split; [reflexivity|].
  exact (proj1 (get_requests_never_write 1001 (GetStreak "ann" "python")
                  w_two_days) eq_refl).
Defined.

(** ** The diagnostic route *)

Section diagnostics.

Lemma utf8_take_code_points (n : nat) (s : string) :
  (code_points (utf8_take n s) ≤ n)%nat.
Proof.
  revert n. induction s as [|c s IH]; intros n; cbn; [lia|].
  destruct (is_continuation c) eqn:E; cbn; rewrite ?E; [apply IH|].
  destruct n as [|n]; cbn; rewrite ?E; [lia|].
  specialize (IH n). lia.
Qed.

Lemma utf8_take_prefix (n : nat) (s : string) :
  ∃ rest, s = utf8_take n s +:+ rest.
Proof.
  revert n. induction s as [|c s IH]; intros n; cbn; [by exists EmptyString|].
  destruct (is_continuation c).
  - destruct (IH n) as [rest E]. exists rest.
    change (String c s = String c (utf8_take n s +:+ rest)). by f_equal.
  - destruct n as [|n]; [by eexists|].
    destruct (IH n) as [rest E]. exists rest.
    change (String c s = String c (utf8_take n s +:+ rest)). by f_equal.
Qed.

Lemma utf8_take_all (n : nat) (s : string) :
  (code_points s ≤ n)%nat → utf8_take n s = s.
Proof.
  revert n. induction s as [|c s IH]; intros n; cbn; [done|].
  destruct (is_continuation c); intros H.
  - by rewrite IH.
  - destruct n as [|n]; [lia|]. rewrite IH; [done|lia].
Qed.

End diagnostics.

(** X20.  GET /test reports the two settings from the environment alone:
    "database_url" and "database_name" are a set or not-set mark for the
    variables DATABASE_URL and DATABASE_NAME, an empty value counting as
    not set, whatever the connection is; the name of the database and the
    "Configured" mark written earlier never reach the answer. *)
Theorem diagnostics_settings_from_environment (db db' : option Database)
    (getenv : string → option string) :
  dg_database_url (test_database db getenv)
  = dg_database_url (test_database db' getenv) ∧
  dg_database_name (test_database db getenv)
  = dg_database_name (test_database db' getenv) ∧
  (dg_database_url (test_database db getenv)
   = Some (if truthy (getenv "DATABASE_URL"%string)
           then "✅ Set" else "❌ Not Set")%string) ∧
  (dg_database_name (test_database db getenv)
   = Some (if truthy (getenv "DATABASE_NAME"%string)
           then "✅ Set" else "❌ Not Set")%string) ∧
  (∀ d name, db = Some d → db_name d = Some name →
             name ≠ "✅ Set"%string → name ≠ "❌ Not Set"%string →
             dg_database_name (test_database db getenv) ≠ Some name).
Proof.
  split_and!; try done.
  intros d name -> Hname Hs Hn. cbn.
  destruct (truthy (getenv "DATABASE_NAME"%string)); congruence.
Qed.


Lemma diagnostics_settings_from_environment_witness :
  db_name (mkDatabase (Some "community"%string) (Listed []))
  = Some "community"%string ∧
  "community"%string ≠ "✅ Set"%string ∧
  "community"%string ≠ "❌ Not Set"%string ∧
  dg_database_name
    (test_database (Some (mkDatabase (Some "community"%string) (Listed [])))
       (λ _, Some "x"%string))
  ≠ Some "community"%string.
Proof.
  assert ("community"%string ≠ "✅ Set"%string) as H1 by discriminate.
  assert ("community"%string ≠ "❌ Not Set"%string) as H2 by discriminate.
  split_and!; [reflexivity|exact H1|exact H2|].
  exact (proj2 (proj2 (proj2 (proj2
           (diagnostics_settings_from_environment
              (Some (mkDatabase (Some "community"%string) (Listed [])))
              None (λ _, Some "x"%string)))))
           _ _ eq_refl eq_refl H1 H2).
Defined.

(** X21.  GET /test always answers.  The backend is reported running; the
    connection is reported "Connected" exactly when there is a connection
    object; at most ten collection names are listed, the first ones, and
    none without a working connection; the database is reported connected
    and working exactly when the names could be listed, and never as "Not
    Available"; a failure of the listing is reported with at most the first
    50 characters of its message, and whole when it is that short. *)
Theorem diagnostics_of_the_connection (db : option Database)
    (getenv : string → option string) :
  let r := test_database db getenv in
  dg_backend r = "✅ Running"%string ∧
  (dg_connection_status r = "Connected"%string ↔ is_Some db) ∧
  (dg_connection_status r = "Not Connected"%string ↔ db = None) ∧
  (List.length (dg_collections r) ≤ 10)%nat ∧
  (∀ d names, db = Some d → db_list_collection_names d = Listed names →
              dg_collections r = take 10 names) ∧
  ((∀ d names, db = Some d → db_list_collection_names d ≠ Listed names) →
   dg_collections r = []) ∧
  (dg_database r = "✅ Connected & Working"%string ↔
   ∃ d names, db = Some d ∧ db_list_collection_names d = Listed names) ∧
  dg_database r ≠ "❌ Not Available"%string ∧
  (db = None → dg_database r = "⚠️  Available but not initialized"%string) ∧
  (∀ d message, db = Some d → db_list_collection_names d = Failed message →
     ∃ shown rest,
       dg_database r = ("⚠️  Connected but Error: " +:+ shown)%string ∧
       message = (shown +:+ rest)%string ∧
       (code_points shown ≤ 50)%nat ∧
       ((code_points message ≤ 50)%nat → shown = message)).
Proof.
  intros r. unfold r.
  destruct db as [[name [names|message]]|]; cbn; split_and!; try done;
    try lia; try (by rewrite length_take; lia).
  all: try (split; [done|]; by intros (d & names' & ? & ?)).
  all: try (by intros d names' ? ?; simplify_eq).
  - intros d names' [= <-]. cbn. by intros [= <-].
  - intros H. by destruct (H _ names eq_refl).
  - split; [by eexists _, _|done].
  - split; [done|]. intros (d & names & ? & ?). by simplify_eq.
  - intros d message' [= <-] [= <-].
    destruct (utf8_take_prefix 50 message) as [rest E].
    exists (utf8_take 50 message), rest.
    split_and!; [done|done|apply utf8_take_code_points|apply utf8_take_all].
Qed.

Lemma diagnostics_of_the_connection_witness :
  db_list_collection_names
    (mkDatabase (Some "community"%string) (Failed "timed out"))
  = Failed "timed out" ∧
  dg_database
    (test_database
       (Some (mkDatabase (Some "community"%string) (Failed "timed out")))
       (λ _, None))
  = "⚠️  Connected but Error: timed out"%string ∧
  ∃ shown rest,
    dg_database
      (test_database
         (Some (mkDatabase (Some "community"%string) (Failed "timed out")))
         (λ _, None))
    = ("⚠️  Connected but Error: " +:+ shown)%string ∧
    "timed out"%string = (shown +:+ rest)%string ∧
    (code_points shown ≤ 50)%nat ∧
    ((code_points "timed out" ≤ 50)%nat → shown = "timed out"%string).
Proof.
  split_and!; [reflexivity|reflexivity|].
  exact (proj2 (proj2 (proj2 (proj2 (proj2 (proj2 (proj2 (proj2 (proj2
           (diagnostics_of_the_connection
              (Some (mkDatabase (Some "community"%string)
                       (Failed "timed out")))
              (λ _, None))))))))))
           _ _ eq_refl eq_refl).
Defined.
